(** * EU AI Act risk classifier: embedding and verification

    Shallow embedding of [ai_act_classifier_with_search.py]:
    - Stage 1, [EnhancedInformationHarvestingAgent]: keyword taxonomies over a
      lower-cased corpus, the search collaborator and the profile builder;
    - Stage 2, [RiskClassificationAgent]: the ordered rule chain, whose
      accumulators are Python list objects held in fields of [self].

    Text is modelled as [string] (a sequence of 8-bit characters, a length
    being a number of them); [lower] and [title] act on the ASCII letters,
    which covers every keyword of the taxonomies, and [strip] removes the
    ASCII white space.  On text within ASCII ([isascii]) these are Python's
    [str] operations character for character; outside of it [str.lower]
    also maps letters such as the Kelvin sign, [str.strip] removes other
    spaces and [len] counts code points.  The statements on Stage 1 that
    depend on this are stated for text within ASCII.  Printing is left out.
    List objects live in a store, so that a result that shares a list with
    the engine is seen to share it. *)

From Stdlib Require Import String Ascii.
From stdpp Require Import gmap strings list pretty.

Local Open Scope string_scope.
Local Open Scope list_scope.

(** ** Python text primitives *)

Definition is_upper (c : ascii) : bool :=
  let n := nat_of_ascii c in (65 <=? n)%nat && (n <=? 90)%nat.

Definition is_lower (c : ascii) : bool :=
  let n := nat_of_ascii c in (97 <=? n)%nat && (n <=? 122)%nat.

Definition lower_char (c : ascii) : ascii :=
  if is_upper c then ascii_of_nat (nat_of_ascii c + 32) else c.

Definition upper_char (c : ascii) : ascii :=
  if is_lower c then ascii_of_nat (nat_of_ascii c - 32) else c.

(** [s.lower()], on text within ASCII. *)
Fixpoint lower (s : string) : string :=
  match s with
  | EmptyString => EmptyString
  | String c t => String (lower_char c) (lower t)
  end.

(** [s.title()]: a letter that follows a letter is lower-cased, any other
    letter is upper-cased. *)
Fixpoint title_from (after_letter : bool) (s : string) : string :=
  match s with
  | EmptyString => EmptyString
  | String c t =>
      String (if after_letter then lower_char c else upper_char c)
             (title_from (is_upper c || is_lower c) t)
  end.

Definition title (s : string) : string := title_from false s.

(** [text] begins with [kw]. *)
Fixpoint starts_with (kw text : string) : bool :=
  match kw, text with
  | EmptyString, _ => true
  | String x kw', String y text' => Ascii.eqb x y && starts_with kw' text'
  | String _ _, EmptyString => false
  end.

(** [kw in text] on two strings: [kw] occurs as a contiguous substring. *)
Fixpoint str_in (kw text : string) : bool :=
  starts_with kw text ||
  match text with
  | EmptyString => false
  | String _ t => str_in kw t
  end.

(** [any(kw in text for kw in keywords)] *)
Definition any_in (keywords : list string) (text : string) : bool :=
  existsb (fun kw => str_in kw text) keywords.

(** [sum(1 for kw in keywords if kw in text)] *)
Definition count_in (keywords : list string) (text : string) : nat :=
  foldr Nat.add 0 ((fun _ => 1) <$> filter (fun kw => str_in kw text = true) keywords).

(** Python's ASCII white space, as removed by [strip()] from text within
    ASCII. *)
Definition is_space (c : ascii) : bool :=
  let n := nat_of_ascii c in ((9 <=? n)%nat && (n <=? 13)%nat) || ((28 <=? n)%nat && (n <=? 32)%nat).

Fixpoint lstrip (s : string) : string :=
  match s with
  | EmptyString => EmptyString
  | String c t => if is_space c then lstrip t else s
  end.

Fixpoint rstrip (s : string) : string :=
  match s with
  | EmptyString => EmptyString
  | String c t =>
      match rstrip t with
      | EmptyString => if is_space c then EmptyString else String c EmptyString
      | t' => String c t'
      end
  end.

Definition strip (s : string) : string := rstrip (lstrip s).

(** [text.split(".")]: the pieces between the periods, at least one. *)
Fixpoint split_dot (s : string) : list string :=
  match s with
  | EmptyString => [EmptyString]
  | String c t =>
      if Ascii.eqb c "."%char then EmptyString :: split_dot t
      else match split_dot t with
           | [] => [String c EmptyString]
           | p :: ps => String c p :: ps
           end
  end.

(** [s[:n]], on text within ASCII. *)
Fixpoint take_str (n : nat) (s : string) : string :=
  match n, s with
  | S m, String c t => String c (take_str m t)
  | _, _ => EmptyString
  end.

(** [sep.join(parts)] *)
Fixpoint join (sep : string) (parts : list string) : string :=
  match parts with
  | [] => EmptyString
  | [p] => p
  | p :: ps => p +:+ sep +:+ join sep ps
  end.

(** ** Data model *)

Inductive RiskLevel : Type :=
  | PROHIBITED
  | HIGH_RISK
  | LOW_RISK
  | TRANSPARENCY_REQUIREMENTS
  | GPAI_REQUIREMENTS
  | EXCEPTION.

#[global] Instance RiskLevel_eq_dec : EqDecision RiskLevel.
Proof. solve_decision. Defined.

(** [RiskLevel.value] *)
Definition RiskLevel_value (r : RiskLevel) : string :=
  match r with
  | PROHIBITED => "Prohibited"
  | HIGH_RISK => "High-Risk"
  | LOW_RISK => "Low-Risk"
  | TRANSPARENCY_REQUIREMENTS => "Additional Transparency Requirements"
  | GPAI_REQUIREMENTS => "GPAI Requirements"
  | EXCEPTION => "Exception"
  end.

(** The dataclass [AISystemProfile]; an [Optional[str]] is an [option]. *)
Record AISystemProfile : Type := mkProfile {
  name : string;
  company : string;
  description : string;
  sector : string;
  primary_purpose : string;
  user_base : string;
  biometrics_involved : bool;
  biometrics_purpose : option string;
  decision_making_role : string;
  high_risk_context : list string;
  data_processed : list string;
  deployment_context : string;
  additional_info : option string;
  search_sources : list string
}.

(** The dataclass [ClassificationResult].  [L] is what a list-valued field
    holds: a reference into the store for the object [classify] returns, the
    list itself once the references are followed. *)
Record ClassificationResult (L : Type) : Type := mkResult {
  risk_level : RiskLevel;
  reasoning : L;
  relevant_articles : list string;
  decision_path : L;
  confidence : string;
  recommendations : L
}.

Arguments mkResult {L} _ _ _ _ _ _.
Arguments risk_level {L} _.
Arguments reasoning {L} _.
Arguments relevant_articles {L} _.
Arguments decision_path {L} _.
Arguments confidence {L} _.
Arguments recommendations {L} _.

(** A taxonomy is a Python dict literal, iterated in insertion order:
    an ordered list of (label, keywords) pairs. *)
Abbreviation taxonomy := (list (string * list string)).

(** The loop [for label, keywords in table.items(): if any(...): x = label; break]
    over a running default. *)
Fixpoint first_hit (table : taxonomy) (text_lower : string) (dflt : string) : string :=
  match table with
  | [] => dflt
  | (label, keywords) :: rest =>
      if any_in keywords text_lower then label else first_hit rest text_lower dflt
  end.

(** The loop [for label, keywords in table.items(): if any(...): acc.append(label)]
    over an accumulator that starts empty. *)
Fixpoint all_hits (table : taxonomy) (text_lower : string) (acc : list string) : list string :=
  match table with
  | [] => acc
  | (label, keywords) :: rest =>
      all_hits rest text_lower (if any_in keywords text_lower then acc ++ [label] else acc)
  end.

(** ** Stage 1: the keyword tables of [_analyze_description] *)

Definition sector_keywords : taxonomy :=
  [ ("automotive", ["car"; "vehicle"; "driver"; "automotive"; "driving"; "autonomous"]);
    ("healthcare", ["health"; "medical"; "patient"; "clinical"; "diagnosis"; "treatment"; "hospital"]);
    ("financial", ["bank"; "finance"; "credit"; "loan"; "mortgage"; "payment"; "insurance"]);
    ("education", ["education"; "student"; "learning"; "school"; "university"; "academic"]);
    ("law enforcement", ["police"; "law enforcement"; "crime"; "investigation"; "surveillance"]);
    ("employment", ["recruitment"; "hiring"; "employment"; "hr"; "candidate"; "job"]);
    ("critical infrastructure", ["infrastructure"; "energy"; "water"; "electricity"; "utility"]);
    ("border control", ["border"; "migration"; "asylum"; "immigration"; "customs"]);
    ("justice", ["court"; "justice"; "legal"; "judicial"; "litigation"]) ].

Definition biometric_indicators : taxonomy :=
  [ ("facial recognition", ["facial recognition"; "face recognition"; "face detection"; "facial identification"]);
    ("fingerprint", ["fingerprint"; "fingerprint scan"; "fingerprint recognition"]);
    ("emotion recognition", ["emotion recognition"; "emotion detection"; "emotional state"; "sentiment analysis"]);
    ("voice biometric", ["voice recognition"; "speaker identification"; "voice biometric"]);
    ("iris scan", ["iris scan"; "iris recognition"; "retinal scan"]);
    ("gait recognition", ["gait"; "walking pattern"]);
    ("behavioral biometric", ["keystroke"; "mouse movement"; "behavioral biometric"]) ].

Definition decision_indicators : taxonomy :=
  [ ("Decision-making", ["decide"; "decision"; "approve"; "reject"; "determine"; "evaluate"; "assess"; "score"; "rate"]);
    ("Assistive/Recommendatory", ["recommend"; "suggest"; "assist"; "advise"; "guide"; "help"]);
    ("Fully Automated Decision", ["automated decision"; "automatic decision"; "without human intervention"]);
    ("Informational", ["inform"; "display"; "show"; "present"; "visualize"]) ].

Definition risk_indicators : taxonomy :=
  [ ("Safety-critical environment", ["safety"; "critical"; "emergency"; "life-threatening"]);
    ("Vehicle operation", ["vehicle"; "car"; "driver"; "driving"; "autonomous vehicle"; "self-driving"]);
    ("Medical decision", ["diagnosis"; "treatment"; "medical decision"; "clinical decision"; "patient care"]);
    ("Financial decision", ["credit"; "loan"; "financial decision"; "creditworthiness"; "credit score"]);
    ("Law enforcement", ["law enforcement"; "police"; "crime"; "investigation"; "predictive policing"]);
    ("Employment decision", ["recruitment"; "hiring"; "employment decision"; "candidate selection"; "performance evaluation"]);
    ("Educational assessment", ["exam"; "grade"; "admission"; "educational assessment"; "student evaluation"]);
    ("Border control", ["border"; "migration"; "asylum"; "visa"; "immigration"]);
    ("Justice administration", ["court"; "judge"; "judicial"; "legal proceeding"; "evidence"]);
    ("Essential services access", ["public benefit"; "social service"; "essential service"; "welfare"]);
    ("Critical infrastructure", ["power grid"; "water supply"; "transportation system"; "energy infrastructure"]) ].

Definition data_indicators : taxonomy :=
  [ ("Personal data", ["personal"; "user data"; "individual data"]);
    ("Location data", ["location"; "navigation"; "gps"; "geolocation"]);
    ("Biometric data", ["biometric"; "facial"; "fingerprint"; "iris"; "voice print"]);
    ("Voice/Audio data", ["voice"; "speech"; "audio"; "conversation"; "recording"]);
    ("Video/Image data", ["video"; "camera"; "image"; "photograph"; "visual"]);
    ("Financial data", ["financial"; "transaction"; "payment"; "banking"; "credit card"]);
    ("Health data", ["health"; "medical"; "clinical"; "patient record"; "diagnosis"]);
    ("Behavioral data", ["behavior"; "behaviour"; "pattern"; "habit"; "activity"]);
    ("Sensitive attributes", ["race"; "ethnicity"; "religion"; "political"; "sexual orientation"; "health status"]) ].

Definition deployment_contexts : taxonomy :=
  [ ("In-vehicle system", ["vehicle"; "car"; "automotive"; "in-car"]);
    ("Healthcare facility", ["hospital"; "clinic"; "medical facility"; "healthcare"]);
    ("Workplace", ["workplace"; "office"; "work environment"; "employee"]);
    ("Public space", ["public"; "street"; "outdoor"; "public area"]);
    ("Educational institution", ["school"; "university"; "classroom"; "campus"]);
    ("Border crossing", ["border"; "airport"; "customs"; "immigration"]);
    ("Law enforcement", ["police station"; "law enforcement"; "investigation"]);
    ("Court/Legal", ["court"; "courthouse"; "legal proceeding"]);
    ("Online service", ["online"; "web"; "app"; "digital"; "cloud"]);
    ("Critical infrastructure", ["power plant"; "water treatment"; "infrastructure"]) ].

Definition user_bases : taxonomy :=
  [ ("Vehicle drivers and passengers", ["driver"; "passenger"; "vehicle occupant"]);
    ("Patients and healthcare providers", ["patient"; "doctor"; "nurse"; "clinician"; "healthcare provider"]);
    ("General consumers", ["customer"; "consumer"; "user"; "client"]);
    ("Employees and workers", ["employee"; "worker"; "staff"; "personnel"]);
    ("Students and educators", ["student"; "teacher"; "educator"; "learner"]);
    ("Law enforcement officers", ["police"; "officer"; "law enforcement"]);
    ("Border control agents", ["border agent"; "customs officer"; "immigration officer"]);
    ("Judges and legal professionals", ["judge"; "lawyer"; "attorney"; "legal professional"]);
    ("General public", ["public"; "citizen"; "resident"; "population"]) ].

(** ** Stage 1: [EnhancedInformationHarvestingAgent._analyze_description] *)

(** One turn of the sector loop: the running pair [(sector, sector_confidence)]
    is replaced only when the new count is strictly greater. *)
Definition sector_step (text_lower : string) (best : string * nat)
    (entry : string * list string) : string * nat :=
  let '(sec, keywords) := entry in
  let matches := count_in keywords text_lower in
  if (best.2 <? matches)%nat then (title sec, matches) else best.

Definition sector_scan (table : taxonomy) (text_lower : string) (best : string * nat)
    : string * nat :=
  fold_left (sector_step text_lower) table best.

(** The purpose chain inside the biometric loop. *)
Definition purpose_of (text_lower : string) : option string :=
  if str_in "identification" text_lower || str_in "identify" text_lower then
    Some "identification"
  else if str_in "emotion" text_lower || str_in "sentiment" text_lower then
    Some "emotion recognition"
  else if str_in "categorization" text_lower || str_in "categorisation" text_lower then
    Some "categorisation"
  else if str_in "verification" text_lower || str_in "authenticate" text_lower then
    Some "authentication"
  else None.

(** The biometric loop: [(biometrics_involved, biometrics_purpose)], leaving
    at the first type with a keyword in the text. *)
Fixpoint biometric_scan (table : taxonomy) (text_lower : string) : bool * option string :=
  match table with
  | [] => (false, None)
  | (bio_type, keywords) :: rest =>
      if any_in keywords text_lower then (true, purpose_of text_lower)
      else biometric_scan rest text_lower
  end.

(** [_extract_primary_purpose]; [String.length] is [len] on text within
    ASCII. *)
Definition purpose_candidate (name : string) (sentence : string) : option string :=
  if str_in (lower name) (lower sentence)
     || any_in ["uses"; "enables"; "provides"; "helps"] (lower sentence)
  then
    let cleaned := strip sentence in
    if (20 <? String.length cleaned)%nat && (String.length cleaned <? 200)%nat
    then Some cleaned else None
  else None.

Definition substantial (sentence : string) : option string :=
  let cleaned := strip sentence in
  if (30 <? String.length cleaned)%nat then Some (take_str 150 cleaned) else None.

Fixpoint first_some {A B : Type} (f : A -> option B) (l : list A) : option B :=
  match l with
  | [] => None
  | x :: rest => match f x with Some y => Some y | None => first_some f rest end
  end.

Definition _extract_primary_purpose (text name : string) : string :=
  let sentences := split_dot text in
  match first_some (purpose_candidate name) sentences with
  | Some cleaned => cleaned
  | None =>
      match first_some substantial sentences with
      | Some cut => cut
      | None => take_str 150 text
      end
  end.

(** The dict [_analyze_description] returns, one field per key. *)
Record Analysis : Type := mkAnalysis {
  a_sector : string;
  a_primary_purpose : string;
  a_user_base : string;
  a_biometrics_involved : bool;
  a_biometrics_purpose : option string;
  a_decision_making_role : string;
  a_high_risk_contexts : list string;
  a_data_processed : list string;
  a_deployment_context : string
}.

Definition _analyze_description (full_text name company : string) : Analysis :=
  let text_lower := lower full_text in
  let sector := (sector_scan sector_keywords text_lower ("General", 0)).1 in
  let bio := biometric_scan biometric_indicators text_lower in
  let decision_making_role := first_hit decision_indicators text_lower "Informational" in
  let high_risk_contexts := all_hits risk_indicators text_lower [] in
  let data_types := all_hits data_indicators text_lower [] in
  let deployment_context := first_hit deployment_contexts text_lower "General commercial use" in
  let user_base := first_hit user_bases text_lower "General public" in
  let primary_purpose := _extract_primary_purpose full_text name in
  {| a_sector := sector;
     a_primary_purpose := primary_purpose;
     a_user_base := user_base;
     a_biometrics_involved := bio.1;
     a_biometrics_purpose := bio.2;
     a_decision_making_role := decision_making_role;
     a_high_risk_contexts := high_risk_contexts;
     a_data_processed := data_types;
     a_deployment_context := deployment_context |}.

(** ** Stage 1: the search collaborator and [harvest_from_description] *)

Definition newline : string := String "010"%char EmptyString.

(** What the module sees of the [ddgs] package: whether the import
    succeeded, whether opening [DDGS()] succeeds, and the answer of
    [ddgs.text(query, max_results=3)] to a query, [None] when it raises.
    A result is a dict from field names to strings. *)
Record Web : Type := mkWeb {
  SEARCH_AVAILABLE : bool;
  DDGS_opens : bool;
  ddgs_text : string -> option (list (gmap string string))
}.

(** Python truth value of a string. *)
Definition truthy (s : string) : bool :=
  match s with EmptyString => false | _ => true end.

(** [result.get('href') not in sources], negated: [get] without a default
    gives [None] for a missing key, and [None] is in no list of strings. *)
Definition href_seen (result : gmap string string) (sources : list string) : bool :=
  match result !! "href" with
  | Some href => bool_decide (href ∈ sources)
  | None => false
  end.

(** The body of [for result in results], on the pair [(all_results, sources)]. *)
Definition collect (acc : list (gmap string string) * list string)
    (result : gmap string string) : list (gmap string string) * list string :=
  if href_seen result acc.2 then acc
  else
    (acc.1 ++ [ {[ "title" := default "" (result !! "title");
                   "snippet" := default "" (result !! "body");
                   "url" := default "" (result !! "href") ]} ],
     acc.2 ++ [ default "" (result !! "href") ]).

(** The body of [for query in search_queries]: a query that raises is skipped. *)
Definition run_query (web : Web) (acc : list (gmap string string) * list string)
    (query : string) : list (gmap string string) * list string :=
  match ddgs_text web query with
  | Some results => fold_left collect results acc
  | None => acc
  end.

Definition format_line (result : gmap string string) : list string :=
  let title := default "Source" (result !! "title") in
  let snippet := default "" (result !! "snippet") in
  if truthy snippet then ["- " +:+ title +:+ ": " +:+ snippet] else [].

Definition _format_search_results (results : list (gmap string string)) : string :=
  match results with
  | [] => ""
  | _ => join newline (results ≫= format_line)
  end.

Definition search_queries (name company : string) : list string :=
  [ company +:+ " " +:+ name +:+ " AI system";
    company +:+ " " +:+ name +:+ " use case application" ].

Definition _search_for_system (web : Web) (name company description : string)
    : string * list string :=
  if negb (SEARCH_AVAILABLE web) then ("", [])
  else if negb (DDGS_opens web) then ("", [])
  else
    let '(all_results, sources) :=
      fold_left (run_query web) (search_queries name company) ([], []) in
    (_format_search_results all_results, sources).

(** The text handed to [_analyze_description]. *)
Definition combined_info (description search_info : string) : string :=
  description +:+ newline +:+ newline +:+ "Additional Context from Web Search:"
              +:+ newline +:+ search_info.

(** Step 1 of [harvest_from_description]: [(search_info, sources)]. *)
Definition perform_search (web : Web) (enable_search : bool)
    (name company description : string) : string * list string :=
  if enable_search then _search_for_system web name company description
  else ("", []).

Definition harvest_from_description (web : Web) (enable_search : bool)
    (name company description : string) : AISystemProfile :=
  let '(search_info, sources) :=
    perform_search web enable_search name company description in
  let analysis := _analyze_description (combined_info description search_info) name company in
  {| name := name;
     company := company;
     description := description;
     sector := a_sector analysis;
     primary_purpose := a_primary_purpose analysis;
     user_base := a_user_base analysis;
     biometrics_involved := a_biometrics_involved analysis;
     biometrics_purpose := a_biometrics_purpose analysis;
     decision_making_role := a_decision_making_role analysis;
     high_risk_context := a_high_risk_contexts analysis;
     data_processed := a_data_processed analysis;
     deployment_context := a_deployment_context analysis;
     additional_info := if truthy search_info then Some search_info else None;
     search_sources := sources |}.

(** ** Stage 2: the store of list objects

    A Python list is an object reached through a reference.  The store maps
    a reference to the current contents of its list; [self] holds the three
    references of the engine's fields.  A computation takes the world to a
    value and a new world. *)

Abbreviation loc := nat.

Record RiskClassificationAgent : Type := mkAgent {
  self_decision_path : loc;
  self_reasoning : loc;
  self_recommendations : loc
}.

Record World : Type := mkWorld {
  heap : list (list string);
  self : RiskClassificationAgent
}.

Definition M (A : Type) : Type := World -> A * World.

#[global] Instance M_ret : MRet M := fun A a w => (a, w).
#[global] Instance M_bind : MBind M :=
  fun A B k m w => let '(a, w') := m w in k a w'.

(** [[...]]: a new list object. *)
Definition new_list (xs : list string) : M loc :=
  fun w => (length (heap w), {| heap := heap w ++ [xs]; self := self w |}).

(** The contents of a list object (no reference of a run is dangling). *)
Definition load (l : loc) : M (list string) :=
  fun w => (default [] (heap w !! l), w).

(** [l.append(x)] and [l.extend(xs)]: the object is changed in place. *)
Definition list_append (l : loc) (x : string) : M unit :=
  fun w => (tt, {| heap := alter (fun xs => xs ++ [x]) l (heap w); self := self w |}).

Definition list_extend (l : loc) (ys : list string) : M unit :=
  fun w => (tt, {| heap := alter (fun xs => xs ++ ys) l (heap w); self := self w |}).

(** [self.f] read, and [self.f = l] written, for the three fields. *)
Definition field (f : RiskClassificationAgent -> loc) : M loc :=
  fun w => (f (self w), w).

Definition set_decision_path (l : loc) : M unit :=
  fun w => (tt, {| heap := heap w;
                   self := {| self_decision_path := l;
                              self_reasoning := self_reasoning (self w);
                              self_recommendations := self_recommendations (self w) |} |}).

Definition set_reasoning (l : loc) : M unit :=
  fun w => (tt, {| heap := heap w;
                   self := {| self_decision_path := self_decision_path (self w);
                              self_reasoning := l;
                              self_recommendations := self_recommendations (self w) |} |}).

Definition set_recommendations (l : loc) : M unit :=
  fun w => (tt, {| heap := heap w;
                   self := {| self_decision_path := self_decision_path (self w);
                              self_reasoning := self_reasoning (self w);
                              self_recommendations := l |} |}).

(** [self.f.append(x)] and [self.f.extend(xs)] *)
Definition append (f : RiskClassificationAgent -> loc) (x : string) : M unit :=
  l ← field f; list_append l x.

Definition extend (f : RiskClassificationAgent -> loc) (ys : list string) : M unit :=
  l ← field f; list_extend l ys.

(** [RiskClassificationAgent()]: [__init__] binds three new empty lists. *)
Definition __init__ : M unit :=
  l ← new_list []; set_decision_path l;;
  l ← new_list []; set_reasoning l;;
  l ← new_list []; set_recommendations l.

(** ** Stage 2: the rule chain of [RiskClassificationAgent] *)

Definition _check_exceptions (profile : AISystemProfile) : M bool :=
  append self_decision_path "Article 2: Scope exceptions";;
  if str_in "research" (lower (description profile))
     && str_in "scientific" (lower (description profile)) then
    append self_reasoning "May qualify for scientific research exception (Article 2.6)";;
    mret true
  else if any_in ["military"; "defence"; "defense"] (lower (description profile)) then
    append self_reasoning "Military/defence exception applies (Article 2.3)";;
    mret true
  else mret false.

(** [x in xs] for a string and a list of strings. *)
Definition mem (x : string) (xs : list string) : bool := bool_decide (x ∈ xs).

(** The two nested [if] blocks of the source (biometric identification, then
    emotion recognition) fall through to the next check when an inner test
    fails; each is written here as one conjunction. *)
Definition _check_prohibited (profile : AISystemProfile) : M bool :=
  append self_decision_path "Article 5: Prohibited AI practices";;
  if any_in ["manipulate"; "subliminal"; "exploit vulnerabilities"]
            (lower (description profile)) then
    append self_reasoning "ðŸš« PROHIBITED: Subliminal manipulation (Article 5.1a)";;
    mret true
  else if str_in "social scor" (lower (description profile)) then
    append self_reasoning "ðŸš« PROHIBITED: Social scoring system (Article 5.1c)";;
    mret true
  else if biometrics_involved profile
          && bool_decide (biometrics_purpose profile = Some "identification")
          && (str_in "real-time" (lower (description profile))
              || str_in "live" (lower (description profile)))
          && str_in "public" (lower (deployment_context profile)) then
    append self_reasoning "ðŸš« PROHIBITED: Real-time remote biometric identification (Article 5.1h)";;
    mret true
  else if bool_decide (biometrics_purpose profile = Some "emotion recognition")
          && existsb (fun ctx => mem ctx (high_risk_context profile))
                     ["Workplace"; "Educational assessment"] then
    append self_reasoning "ðŸš« PROHIBITED: Emotion recognition in workplace/education (Article 5.1f)";;
    mret true
  else mret false.

Definition general : list string :=
  [ "Implement risk management system (Article 9)";
    "Ensure high-quality training data (Article 10)";
    "Maintain technical documentation (Article 11)";
    "Enable logging and traceability (Article 12)";
    "Implement human oversight (Article 14)";
    "Ensure accuracy and robustness (Article 15)";
    "Undergo conformity assessment (Article 43)";
    "Register in EU database (Article 71)" ].

Definition specific : gmap string (list string) :=
  {[ "safety" := ["Conduct vehicle safety testing"; "Implement fail-safe mechanisms"];
     "biometric" := ["Strict biometric data access controls"; "GDPR compliance"];
     "employment" := ["Human-in-the-loop for decisions"; "Bias testing"];
     "border_control" := ["Data protection for sensitive data"; "Appeal mechanisms"] ]}.

Definition _add_high_risk_recommendations (category : string) : M unit :=
  extend self_recommendations general;;
  match specific !! category with
  | Some extra => extend self_recommendations extra
  | None => mret tt
  end.

Definition _check_high_risk (profile : AISystemProfile) : M bool :=
  append self_decision_path "Article 6 & Annex III: High-risk systems";;
  if biometrics_involved profile
     && match biometrics_purpose profile with
        | Some purpose => mem purpose ["identification"; "categorisation"]
        | None => false
        end then
    append self_reasoning "âš ï¸ HIGH-RISK: Biometric identification system (Annex III.1)";;
    _add_high_risk_recommendations "biometric";;
    mret true
  else if mem "Critical infrastructure" (high_risk_context profile) then
    append self_reasoning "âš ï¸ HIGH-RISK: Critical infrastructure system (Annex III.2)";;
    _add_high_risk_recommendations "infrastructure";;
    mret true
  else if mem "Safety-critical environment" (high_risk_context profile)
          || mem "Vehicle operation" (high_risk_context profile) then
    append self_reasoning "âš ï¸ HIGH-RISK: Safety component in vehicle operation (Annex III.2)";;
    append self_reasoning "System operates in safety-critical context";;
    _add_high_risk_recommendations "safety";;
    mret true
  else if mem "Educational assessment" (high_risk_context profile) then
    append self_reasoning "âš ï¸ HIGH-RISK: Educational assessment system (Annex III.3)";;
    _add_high_risk_recommendations "education";;
    mret true
  else if mem "Employment decision" (high_risk_context profile) then
    append self_reasoning "âš ï¸ HIGH-RISK: Employment decision system (Annex III.4)";;
    _add_high_risk_recommendations "employment";;
    mret true
  else if mem "Essential services access" (high_risk_context profile)
          || mem "Financial decision" (high_risk_context profile) then
    append self_reasoning "âš ï¸ HIGH-RISK: Essential services/creditworthiness (Annex III.5)";;
    _add_high_risk_recommendations "essential_services";;
    mret true
  else if mem "Law enforcement" (high_risk_context profile) then
    append self_reasoning "âš ï¸ HIGH-RISK: Law enforcement application (Annex III.6)";;
    _add_high_risk_recommendations "law_enforcement";;
    mret true
  else if mem "Border control" (high_risk_context profile) then
    append self_reasoning "âš ï¸ HIGH-RISK: Border control system (Annex III.7)";;
    _add_high_risk_recommendations "border_control";;
    mret true
  else if mem "Justice administration" (high_risk_context profile) then
    append self_reasoning "âš ï¸ HIGH-RISK: Administration of justice (Annex III.8)";;
    _add_high_risk_recommendations "justice";;
    mret true
  else mret false.

Definition _check_transparency (profile : AISystemProfile) : M bool :=
  append self_decision_path "Article 50: Transparency requirements";;
  if any_in ["chat"; "conversational"; "assistant"; "interact"]
            (lower (description profile)) then
    append self_reasoning "â„¹ï¸ TRANSPARENCY: Interactive AI system (Article 50.1)";;
    append self_recommendations "Disclose AI interaction to users";;
    mret true
  else if str_in "generat" (lower (description profile)) then
    append self_reasoning "â„¹ï¸ TRANSPARENCY: Generative AI system (Article 50.2)";;
    append self_recommendations "Label AI-generated content";;
    mret true
  else mret false.

(** The dict [articles] with [articles.get(risk_level, [])]: its lists are
    built anew in every call and never changed, so they are held by value. *)
Definition articles (risk_level : RiskLevel) : list string :=
  match risk_level with
  | PROHIBITED => ["Article 5 - Prohibited Practices"]
  | HIGH_RISK => ["Article 6 & Annex III"; "Articles 8-15 - Requirements"]
  | TRANSPARENCY_REQUIREMENTS => ["Article 50 - Transparency"]
  | LOW_RISK => ["Article 69 - Codes of Conduct (voluntary)"]
  | EXCEPTION => ["Article 2 - Scope exceptions"]
  | GPAI_REQUIREMENTS => []
  end.

(** Python truth value of a list. *)
Definition nonempty (xs : list string) : bool :=
  match xs with [] => false | _ => true end.

Definition confidence_of (n : nat) : string :=
  if (3 <=? n)%nat then "High" else if (2 <=? n)%nat then "Medium" else "Low".

(** [self.f if self.f else [x]]: the field's own list object when it is not
    empty, a new one-element list otherwise. *)
Definition or_default (f : RiskClassificationAgent -> loc) (x : string) : M loc :=
  l ← field f;
  xs ← load l;
  if nonempty xs then mret l else new_list [x].

Definition _create_result (risk_level : RiskLevel) : M (ClassificationResult loc) :=
  r ← field self_reasoning;
  rs ← load r;
  let confidence := confidence_of (length rs) in
  reasoning ← or_default self_reasoning "No specific risks identified";
  decision_path ← field self_decision_path;
  recommendations ← or_default self_recommendations "Monitor regulatory developments";
  mret {| risk_level := risk_level;
          reasoning := reasoning;
          relevant_articles := articles risk_level;
          decision_path := decision_path;
          confidence := confidence;
          recommendations := recommendations |}.

Definition classify (profile : AISystemProfile) : M (ClassificationResult loc) :=
  l ← new_list []; set_decision_path l;;
  l ← new_list []; set_reasoning l;;
  l ← new_list []; set_recommendations l;;
  exception ← _check_exceptions profile;
  if (exception : bool) then _create_result EXCEPTION else
  prohibited ← _check_prohibited profile;
  if (prohibited : bool) then _create_result PROHIBITED else
  high_risk ← _check_high_risk profile;
  if (high_risk : bool) then _create_result HIGH_RISK else
  transparency ← _check_transparency profile;
  if (transparency : bool) then _create_result TRANSPARENCY_REQUIREMENTS else
  _create_result LOW_RISK.

(** Several [classify] calls in a row on the same engine; results dropped. *)
Fixpoint classify_all (profiles : list AISystemProfile) : M unit :=
  match profiles with
  | [] => mret tt
  | p :: rest => classify p;; classify_all rest
  end.

(** What a result reads as in a store: every reference followed. *)
Definition view (h : list (list string)) (r : ClassificationResult loc)
    : ClassificationResult (list string) :=
  {| risk_level := risk_level r;
     reasoning := default [] (h !! reasoning r);
     relevant_articles := relevant_articles r;
     decision_path := default [] (h !! decision_path r);
     confidence := confidence r;
     recommendations := default [] (h !! recommendations r) |}.

(** The result of [classify] as read right after the call. *)
Definition classified (profile : AISystemProfile) (w : World)
    : ClassificationResult (list string) :=
  let '(r, w') := classify profile w in view (heap w') r.

(** ** Report rendering: [format_result]

    The function reads a profile and a result and builds a text; the lists
    of the result are taken as read from the store. *)

(** [s * n] *)
Fixpoint repeat_str (s : string) (n : nat) : string :=
  match n with
  | 0 => EmptyString
  | S m => s +:+ repeat_str s m
  end.

(** An [Optional[str]] inside an f-string. *)
Definition str_of_optional (o : option string) : string := default "None" o.

(** [f"  {i}. {x}" for i, x in enumerate(xs, 1)] *)
Definition numbered (xs : list string) : list string :=
  imap (fun i x => "  " +:+ pretty (S i) +:+ ". " +:+ x) xs.

(** The dict [indicators]; [None] stands for the [KeyError] of a level that
    is not a key. *)
Definition indicators (risk_level : RiskLevel) : option string :=
  match risk_level with
  | PROHIBITED => Some "ðŸš«"
  | HIGH_RISK => Some "âš ï¸"
  | TRANSPARENCY_REQUIREMENTS => Some "â„¹ï¸"
  | LOW_RISK => Some "âœ…"
  | EXCEPTION => Some "âž–"
  | GPAI_REQUIREMENTS => None
  end.

(** The lines of the profile section. *)
Definition profile_lines (profile : AISystemProfile) : list string :=
  [ newline +:+ "ðŸ“‹ SYSTEM PROFILE";
    repeat_str "â”€" 100;
    "  Name: " +:+ name profile;
    "  Company: " +:+ company profile;
    "  Sector: " +:+ sector profile;
    "  Deployment: " +:+ deployment_context profile;
    "  User Base: " +:+ user_base profile;
    "  Decision Role: " +:+ decision_making_role profile ]
  ++ (if biometrics_involved profile
      then [ newline +:+ "  ðŸ” Biometrics: Yes (" +:+ str_of_optional (biometrics_purpose profile) +:+ ")" ]
      else [])
  ++ (if nonempty (high_risk_context profile)
      then (newline +:+ "  âš ï¸  High-Risk Contexts:")
           :: ((fun ctx => "     â€¢ " +:+ ctx) <$> high_risk_context profile)
      else [])
  ++ (if nonempty (search_sources profile)
      then [ newline +:+ "  ðŸ“š Sources: " +:+ pretty (length (search_sources profile)) +:+ " web sources consulted" ]
      else []).

(** The lines of the recommendations section: the first five, then the
    number of those left out. *)
Definition recommendation_lines (recommendations : list string) : list string :=
  if nonempty recommendations then
    [ newline +:+ "âœ… COMPLIANCE RECOMMENDATIONS:" ]
    ++ numbered (take 5 recommendations)
    ++ (if (5 <? length recommendations)%nat
        then [ "  ... and " +:+ pretty (length recommendations - 5) +:+ " more" ]
        else [])
  else [].

Definition format_result (profile : AISystemProfile)
    (result : ClassificationResult (list string)) : option string :=
  match indicators (risk_level result) with
  | None => None
  | Some indicator =>
      Some (join newline
              ([ newline +:+ repeat_str "=" 100;
                 "EU AI ACT CLASSIFICATION REPORT";
                 repeat_str "=" 100 ]
               ++ profile_lines profile
               ++ [ newline +:+ repeat_str "=" 100;
                    indicator +:+ " CLASSIFICATION: " +:+ RiskLevel_value (risk_level result);
                    "Confidence: " +:+ confidence result;
                    repeat_str "=" 100;
                    newline +:+ "ðŸ’¡ REASONING:" ]
               ++ numbered (reasoning result)
               ++ [ newline +:+ "ðŸ“œ RELEVANT PROVISIONS:" ]
               ++ ((fun article => "  â€¢ " +:+ article) <$> relevant_articles result)
               ++ recommendation_lines (recommendations result)
               ++ [ newline +:+ repeat_str "=" 100 ]))
  end.

(** ** Vocabulary of the statements *)

(** [s.isascii()]: every character of the text is within ASCII. *)
Fixpoint isascii (s : string) : bool :=
  match s with
  | EmptyString => true
  | String c t => (nat_of_ascii c <? 128)%nat && isascii t
  end.




(** A label of the table some keyword of which is in the text. *)
Definition hit (text_lower : string) (entry : string * list string) : Prop :=
  any_in entry.2 text_lower = true.

#[global] Instance hit_dec text_lower entry : Decision (hit text_lower entry).
Proof. unfold hit. apply _. Defined.


(** The text [harvest_from_description] hands to the analysis. *)
Definition analyzed_text (web : Web) (enable_search : bool)
    (name company description : string) : string :=
  combined_info description (perform_search web enable_search name company description).1.

(** A machine without the [ddgs] package. *)
Definition offline : Web :=
  {| SEARCH_AVAILABLE := false; DDGS_opens := false; ddgs_text := fun _ => None |}.


(** The fixed line that [combined_info] puts before the search text. *)
Definition header : string := "Additional Context from Web Search:".

(** A search answering two records without a url to each query. *)
Definition no_url_web : Web :=
  {| SEARCH_AVAILABLE := true;
     DDGS_opens := true;
     ddgs_text := fun _ =>
       Some [ {[ "title" := "Product page"; "body" := "An AI system" ]};
              {[ "title" := "Press release"; "body" := "Launch of the system" ]} ] |}.

(** The world inside a [classify] call: an older part [h] of the store, left
    alone, then the three list objects that the fields of [self] refer to,
    holding [D], [R] and [C]. *)
Definition fw (h : list (list string)) (D R C : list string) : World :=
  {| heap := h ++ [D; R; C];
     self := {| self_decision_path := length h;
                self_reasoning := S (length h);
                self_recommendations := S (S (length h)) |} |}.

(** What a computation appends to the three lists. *)
Record Appended : Type := mkAppended {
  to_decision_path : list string;
  to_reasoning : list string;
  to_recommendations : list string
}.

Definition and_then (a b : Appended) : Appended :=
  {| to_decision_path := to_decision_path a ++ to_decision_path b;
     to_reasoning := to_reasoning a ++ to_reasoning b;
     to_recommendations := to_recommendations a ++ to_recommendations b |}.

(** The value a computation returns and what it appends, observed by
    running it on three empty lists. *)
Definition effect_of {A : Type} (m : M A) : A * Appended :=
  let '(a, w) := m (fw [] [] [] []) in
  (a, {| to_decision_path := default [] (heap w !! 0);
         to_reasoning := default [] (heap w !! 1);
         to_recommendations := default [] (heap w !! 2) |}).

(** A computation is tidy when, in every store of a [classify] call, it does
    what [effect_of] observed: it returns that value, appends those items to
    the three lists, and touches nothing else. *)
Definition tidy {A : Type} (m : M A) : Prop :=
  forall h D R C,
    m (fw h D R C)
    = ((effect_of m).1,
       fw h (D ++ to_decision_path (effect_of m).2)
            (R ++ to_reasoning (effect_of m).2)
            (C ++ to_recommendations (effect_of m).2)).

(** The stage returns True on the profile. *)
Definition applies (stage : AISystemProfile -> M bool) (profile : AISystemProfile) : bool :=
  (effect_of (stage profile)).1.

(** The store of a [classify] call after [_create_result] has added [ext]. *)
Definition fwx (h : list (list string)) (D R C : list string)
    (ext : list (list string)) : World :=
  {| heap := (h ++ [D; R; C]) ++ ext; self := self (fw h D R C) |}.

(** The result that a risk level and the three accumulated lists give. *)
Definition result_of (risk_level : RiskLevel) (a : Appended)
    : ClassificationResult (list string) :=
  {| risk_level := risk_level;
     reasoning := if nonempty (to_reasoning a) then to_reasoning a
                  else ["No specific risks identified"];
     relevant_articles := articles risk_level;
     decision_path := to_decision_path a;
     confidence := confidence_of (length (to_reasoning a));
     recommendations := if nonempty (to_recommendations a) then to_recommendations a
                        else ["Monitor regulatory developments"] |}.

(** The references of a result lie in the part [lo, hi) of the store. *)
Definition within (r : ClassificationResult loc) (lo hi : nat) : Prop :=
  (lo <= reasoning r < hi) /\ (lo <= decision_path r < hi)
  /\ (lo <= recommendations r < hi).

(** The risk level and the accumulated lists of a profile, from the effects
    of the four stages taken in order. *)
Definition verdict (profile : AISystemProfile) : RiskLevel * Appended :=
  let e := effect_of (_check_exceptions profile) in
  if e.1 then (EXCEPTION, e.2) else
  let f := effect_of (_check_prohibited profile) in
  if f.1 then (PROHIBITED, and_then e.2 f.2) else
  let g := effect_of (_check_high_risk profile) in
  if g.1 then (HIGH_RISK, and_then (and_then e.2 f.2) g.2) else
  let t := effect_of (_check_transparency profile) in
  if t.1 then (TRANSPARENCY_REQUIREMENTS, and_then (and_then (and_then e.2 f.2) g.2) t.2)
  else (LOW_RISK, and_then (and_then (and_then e.2 f.2) g.2) t.2).

(** The four stage labels, in the order of the chain. *)
Definition stages : list string :=
  [ "Article 2: Scope exceptions";
    "Article 5: Prohibited AI practices";
    "Article 6 & Annex III: High-risk systems";
    "Article 50: Transparency requirements" ].

(** An engine right after construction. *)
Definition new_engine : World :=
  (__init__ {| heap := []; self := mkAgent 0 0 0 |}).2.

(** An Annex III category as the specification lists it: the key of its
    recommendations, the test on the profile, the reasoning it records. *)
Record AnnexCategory : Type := mkCategory {
  category : string;
  satisfied : AISystemProfile -> bool;
  category_reasoning : list string
}.

(** The nine categories in the priority order of the specification:
    biometric, critical infrastructure, safety-critical or vehicle
    operation, educational assessment, employment decision, essential
    services or financial decision, law enforcement, border control,
    justice administration. *)
Definition annex_iii_priority : list AnnexCategory :=
  [ mkCategory "biometric"
      (fun profile =>
         biometrics_involved profile
         && match biometrics_purpose profile with
            | Some purpose => mem purpose ["identification"; "categorisation"]
            | None => false
            end)
      ["âš ï¸ HIGH-RISK: Biometric identification system (Annex III.1)"];
    mkCategory "infrastructure"
      (fun profile => mem "Critical infrastructure" (high_risk_context profile))
      ["âš ï¸ HIGH-RISK: Critical infrastructure system (Annex III.2)"];
    mkCategory "safety"
      (fun profile =>
         mem "Safety-critical environment" (high_risk_context profile)
         || mem "Vehicle operation" (high_risk_context profile))
      ["âš ï¸ HIGH-RISK: Safety component in vehicle operation (Annex III.2)";
       "System operates in safety-critical context"];
    mkCategory "education"
      (fun profile => mem "Educational assessment" (high_risk_context profile))
      ["âš ï¸ HIGH-RISK: Educational assessment system (Annex III.3)"];
    mkCategory "employment"
      (fun profile => mem "Employment decision" (high_risk_context profile))
      ["âš ï¸ HIGH-RISK: Employment decision system (Annex III.4)"];
    mkCategory "essential_services"
      (fun profile =>
         mem "Essential services access" (high_risk_context profile)
         || mem "Financial decision" (high_risk_context profile))
      ["âš ï¸ HIGH-RISK: Essential services/creditworthiness (Annex III.5)"];
    mkCategory "law_enforcement"
      (fun profile => mem "Law enforcement" (high_risk_context profile))
      ["âš ï¸ HIGH-RISK: Law enforcement application (Annex III.6)"];
    mkCategory "border_control"
      (fun profile => mem "Border control" (high_risk_context profile))
      ["âš ï¸ HIGH-RISK: Border control system (Annex III.7)"];
    mkCategory "justice"
      (fun profile => mem "Justice administration" (high_risk_context profile))
      ["âš ï¸ HIGH-RISK: Administration of justice (Annex III.8)"] ].

(** The first category of a list that the profile satisfies. *)
Fixpoint first_satisfied (profile : AISystemProfile) (categories : list AnnexCategory)
    : option AnnexCategory :=
  match categories with
  | [] => None
  | c :: rest => if satisfied c profile then Some c else first_satisfied profile rest
  end.

(** The extra recommendations of a category, and all it recommends. *)
Definition extras (c : AnnexCategory) : list string :=
  default [] (specific !! category c).

Definition category_recommendations (c : AnnexCategory) : list string :=
  general ++ extras c.

(** The reasoning of the Article 5.1f check. *)
Definition emotion_line : string :=
  "ðŸš« PROHIBITED: Emotion recognition in workplace/education (Article 5.1f)".

(** The outcomes of [classify], stage by stage. *)
Inductive Outcome (profile : AISystemProfile)
    : ClassificationResult (list string) -> Prop :=
  | by_exception line :
      line ∈ ["May qualify for scientific research exception (Article 2.6)";
              "Military/defence exception applies (Article 2.3)"] ->
      Outcome profile
        (mkResult EXCEPTION [line] (articles EXCEPTION) (take 1 stages) "Low"
           ["Monitor regulatory developments"])
  | by_prohibition line :
      line ∈ ["ðŸš« PROHIBITED: Subliminal manipulation (Article 5.1a)";
              "ðŸš« PROHIBITED: Social scoring system (Article 5.1c)";
              "ðŸš« PROHIBITED: Real-time remote biometric identification (Article 5.1h)";
              "ðŸš« PROHIBITED: Emotion recognition in workplace/education (Article 5.1f)"] ->
      Outcome profile
        (mkResult PROHIBITED [line] (articles PROHIBITED) (take 2 stages) "Low"
           ["Monitor regulatory developments"])
  | by_high_risk c :
      c ∈ annex_iii_priority ->
      satisfied c profile = true ->
      Outcome profile
        (mkResult HIGH_RISK (category_reasoning c) (articles HIGH_RISK)
           (take 3 stages) (confidence_of (length (category_reasoning c)))
           (category_recommendations c))
  | by_transparency line advice :
      (line, advice)
      ∈ [("â„¹ï¸ TRANSPARENCY: Interactive AI system (Article 50.1)",
          "Disclose AI interaction to users");
         ("â„¹ï¸ TRANSPARENCY: Generative AI system (Article 50.2)",
          "Label AI-generated content")] ->
      Outcome profile
        (mkResult TRANSPARENCY_REQUIREMENTS [line]
           (articles TRANSPARENCY_REQUIREMENTS) stages "Low" [advice])
  | by_default :
      Outcome profile
        (mkResult LOW_RISK ["No specific risks identified"] (articles LOW_RISK)
           stages "Low" ["Monitor regulatory developments"]).

(** The labels that the stages look for in [high_risk_context]. *)
Definition tested_contexts : list string :=
  [ "Workplace"; "Educational assessment"; "Critical infrastructure";
    "Safety-critical environment"; "Vehicle operation"; "Employment decision";
    "Essential services access"; "Financial decision"; "Law enforcement";
    "Border control"; "Justice administration" ].

(** Two profiles that [classify] cannot tell apart. *)
Definition same_for_classify (p q : AISystemProfile) : Prop :=
  description p = description q
  /\ biometrics_involved p = biometrics_involved q
  /\ biometrics_purpose p = biometrics_purpose q
  /\ deployment_context p = deployment_context q
  /\ (forall label, label ∈ tested_contexts ->
        (label ∈ high_risk_context p <-> label ∈ high_risk_context q)).

(** The profile with "Medical decision" taken out of its contexts. *)
Definition without_medical_decision (p : AISystemProfile) : AISystemProfile :=
  {| name := name p; company := company p; description := description p;
     sector := sector p; primary_purpose := primary_purpose p;
     user_base := user_base p; biometrics_involved := biometrics_involved p;
     biometrics_purpose := biometrics_purpose p;
     decision_making_role := decision_making_role p;
     high_risk_context :=
       filter (fun label => label <> "Medical decision") (high_risk_context p);
     data_processed := data_processed p;
     deployment_context := deployment_context p;
     additional_info := additional_info p;
     search_sources := search_sources p |}.

(** The reasoning of the Article 5.1h check. *)
Definition real_time_line : string :=
  "ðŸš« PROHIBITED: Real-time remote biometric identification (Article 5.1h)".

(** A value chosen from a table by the first-hit discipline: the label of
    the first entry with a keyword in the text, the default when no entry
    has one. *)
Definition first_hit_law (table : taxonomy) (dflt : string) (text_lower value : string)
    : Prop :=
  (forall pre label keywords post,
      table = pre ++ (label, keywords) :: post ->
      Forall (fun entry => ~ hit text_lower entry) pre ->
      any_in keywords text_lower = true ->
      value = label)
  /\ (Forall (fun entry => ~ hit text_lower entry) table -> value = dflt).

(** A provider whose first query raises, and the same with an empty answer
    in its place. *)
Definition flaky_web (fails : bool) : Web :=
  {| SEARCH_AVAILABLE := true;
     DDGS_opens := true;
     ddgs_text := fun query =>
       if String.eqb query "Co Sys AI system"
       then (if fails then None else Some [])
       else Some [ {[ "title" := "Sys"; "body" := "A sorter"; "href" := "https://co.example/sys" ]} ] |}.

(** A search answering one record with a title only to each query. *)
Definition no_url_web_without_body : Web :=
  {| SEARCH_AVAILABLE := true;
     DDGS_opens := true;
     ddgs_text := fun _ => Some [ {[ "title" := "Product page" ]} ] |}.

(** The result with other recommendations in place of its own. *)
Definition with_recommendations (result : ClassificationResult (list string))
    (recs : list string) : ClassificationResult (list string) :=
  mkResult (risk_level result) (reasoning result) (relevant_articles result)
    (decision_path result) (confidence result) recs.

Arguments fw : simpl never.

(** * Verification *)

(** ** Text *)

Example lower_mixed : lower "Real-Time WEB" = "real-time web".
Proof. reflexivity. Qed.

Example title_two_words : title "law enforcement" = "Law Enforcement".
Proof. reflexivity. Qed.

Example str_in_inside_word : str_in "car" "scarce" = true.
Proof. reflexivity. Qed.

Example split_dot_3 : split_dot "a.b." = ["a"; "b"; ""].
Proof. reflexivity. Qed.

Lemma append_cons (c : ascii) (a b : string) : String c a +:+ b = String c (a +:+ b).
Proof. reflexivity. Qed.

Lemma append_assoc (a b c : string) : (a +:+ b) +:+ c = a +:+ b +:+ c.
Proof.
  induction a as [|x a IH]; [done |].
  by rewrite !append_cons, IH.
Qed.

Lemma starts_with_true_iff (a s : string) :
  starts_with a s = true <-> exists b, s = a +:+ b.
Proof.
  revert s. induction a as [|x a IH]; intros s; simpl.
  - split; [intros _; by exists s | done].
  - destruct s as [|y s].
    + split; [done | intros [b Hb]; discriminate].
    + rewrite andb_true_iff, Ascii.eqb_eq, IH. split.
      * intros [-> [b ->]]. by exists b.
      * intros [b Hb]. rewrite append_cons in Hb.
        injection Hb as -> ->. split; [done | by exists b].
Qed.

(** [str_in] is Python's substring test. *)
Lemma str_in_true_iff (kw text : string) :
  str_in kw text = true <-> exists a b, text = a +:+ kw +:+ b.
Proof.
  induction text as [|c t IH]; simpl.
  - rewrite orb_false_r, starts_with_true_iff. split.
    + intros [b Hb]. by exists EmptyString, b.
    + intros [a [b Hab]]. destruct a; [by exists b | discriminate].
  - rewrite orb_true_iff, starts_with_true_iff, IH. split.
    + intros [[b Hb] | [a [b Hab]]].
      * by exists EmptyString, b.
      * exists (String c a), b. by rewrite append_cons, Hab.
    + intros [a [b Hab]]. destruct a as [|x a].
      * left. by exists b.
      * right. exists a, b. rewrite append_cons in Hab. congruence.
Qed.

Lemma lower_append (a b : string) : lower (a +:+ b) = lower a +:+ lower b.
Proof.
  induction a as [|x a IH]; [done |].
  rewrite append_cons. simpl. by rewrite append_cons, IH.
Qed.








(** ** Taxonomy scans *)

Lemma any_in_true_iff (keywords : list string) (text : string) :
  any_in keywords text = true <-> exists kw, kw ∈ keywords /\ str_in kw text = true.
Proof.
  unfold any_in. induction keywords as [|k ks IH]; simpl.
  - split; [done | intros [kw [Hin _]]; by apply elem_of_nil in Hin].
  - rewrite orb_true_iff, IH. split.
    + intros [Hk | [kw [Hin Hkw]]].
      * exists k. split; [apply list_elem_of_here | done].
      * exists kw. split; [by apply list_elem_of_further | done].
    + intros [kw [Hin Hkw]]. apply elem_of_cons in Hin as [-> | Hin].
      * by left.
      * right. by exists kw.
Qed.

(** The accumulating loop is a filter of the table, in table order. *)
Lemma all_hits_filter (table : taxonomy) (text_lower : string) (acc : list string) :
  all_hits table text_lower acc = acc ++ (filter (hit text_lower) table).*1.
Proof.
  revert acc. induction table as [|[label keywords] rest IH]; intros acc.
  - simpl. by rewrite app_nil_r.
  - cbn [all_hits]. rewrite IH, filter_cons.
    destruct (any_in keywords text_lower) eqn:E.
    + rewrite decide_True by done. rewrite fmap_cons. simpl.
      by rewrite <- app_assoc.
    + rewrite decide_False; [done |]. unfold hit. simpl. by rewrite E.
Qed.

Lemma all_hits_elem (table : taxonomy) (text_lower label : string) :
  label ∈ all_hits table text_lower [] <->
  exists keywords, (label, keywords) ∈ table /\ any_in keywords text_lower = true.
Proof.
  rewrite all_hits_filter, app_nil_l, list_elem_of_fmap. split.
  - intros [[l kws] [-> Hin]]. apply list_elem_of_filter in Hin as [Hhit Hin].
    by exists kws.
  - intros [kws [Hin Hhit]]. exists (label, kws). split; [done |].
    by apply list_elem_of_filter.
Qed.








(** ** The profile builder *)

Lemma harvest_from_description_eq web enable_search name company description :
  harvest_from_description web enable_search name company description =
  let found := perform_search web enable_search name company description in
  let analysis :=
    _analyze_description (analyzed_text web enable_search name company description)
                         name company in
  {| name := name;
     company := company;
     description := description;
     sector := a_sector analysis;
     primary_purpose := a_primary_purpose analysis;
     user_base := a_user_base analysis;
     biometrics_involved := a_biometrics_involved analysis;
     biometrics_purpose := a_biometrics_purpose analysis;
     decision_making_role := a_decision_making_role analysis;
     high_risk_context := a_high_risk_contexts analysis;
     data_processed := a_data_processed analysis;
     deployment_context := a_deployment_context analysis;
     additional_info := if truthy found.1 then Some found.1 else None;
     search_sources := found.2 |}.
Proof.
  unfold harvest_from_description, analyzed_text.
  by destruct (perform_search web enable_search name company description).
Qed.



(** ** Sector selection *)

Section Sector.
Variable text_lower : string.








End Sector.




(** ** First-hit scans and the analysed text *)

Lemma first_hit_in (table : taxonomy) (text_lower dflt : string) :
  Exists (hit text_lower) table -> first_hit table text_lower dflt ∈ table.*1.
Proof.
  induction table as [|[label keywords] rest IH]; intros Hex.
  - by apply Exists_nil in Hex.
  - cbn [first_hit]. rewrite fmap_cons.
    destruct (any_in keywords text_lower) eqn:E.
    + apply list_elem_of_here.
    + apply list_elem_of_further, IH.
      apply Exists_cons in Hex as [Hhit | Hex]; [| done].
      unfold hit in Hhit. simpl in Hhit. congruence.
Qed.

Lemma first_hit_none (table : taxonomy) (text_lower dflt : string) :
  Forall (fun entry => ~ hit text_lower entry) table ->
  first_hit table text_lower dflt = dflt.
Proof.
  induction 1 as [|[label keywords] rest Hno _ IH]; [done |].
  cbn [first_hit]. unfold hit in Hno. simpl in Hno.
  by destruct (any_in keywords text_lower).
Qed.

Lemma combined_info_header (description search_info : string) :
  combined_info description search_info
  = (description +:+ newline +:+ newline) +:+ header +:+ (newline +:+ search_info).
Proof. unfold combined_info, header. by rewrite !append_assoc. Qed.

Lemma combined_info_mentions_web (description search_info : string) :
  str_in "web" (lower (combined_info description search_info)) = true.
Proof.
  apply str_in_true_iff.
  exists (lower (description +:+ newline +:+ newline) +:+ "additional context from "),
         (" search:" +:+ lower (newline +:+ search_info)).
  rewrite combined_info_header, !lower_append.
  change (lower header)
    with ("additional context from " +:+ "web" +:+ " search:").
  by rewrite !append_assoc.
Qed.

(** C8. Whatever the name, the company, the description and the search
    setting, the analysed text holds the line "Additional Context from Web
    Search:", so the keyword "web" of the "Online service" label is found
    in it: some deployment label always matches and the profile never
    carries the default "General commercial use". *)
Theorem deployment_context_never_default
    (web : Web) (enable_search : bool) (name company description : string) :
  let text := analyzed_text web enable_search name company description in
  let profile := harvest_from_description web enable_search name company description in
  (exists a b, text = a +:+ "Additional Context from Web Search:" +:+ b)
  /\ ("Online service", ["online"; "web"; "app"; "digital"; "cloud"]) ∈ deployment_contexts
  /\ any_in ["online"; "web"; "app"; "digital"; "cloud"] (lower text) = true
  /\ deployment_context profile ∈ deployment_contexts.*1
  /\ deployment_context profile <> "General commercial use".
Proof.
  cbv zeta. rewrite harvest_from_description_eq. cbv zeta.
  cbn [deployment_context]. unfold analyzed_text.
  set (search_info := (perform_search web enable_search name company description).1).
  assert (Hweb : any_in ["online"; "web"; "app"; "digital"; "cloud"]
                   (lower (combined_info description search_info)) = true).
  { apply any_in_true_iff. exists "web". split.
    - by apply (bool_decide_unpack _); vm_compute.
    - apply combined_info_mentions_web. }
  assert (Hentry : ("Online service", ["online"; "web"; "app"; "digital"; "cloud"])
                   ∈ deployment_contexts).
  { by apply (bool_decide_unpack _); vm_compute. }
  assert (Hin : a_deployment_context
                  (_analyze_description (combined_info description search_info)
                     name company) ∈ deployment_contexts.*1).
  { unfold _analyze_description. cbn [a_deployment_context].
    apply first_hit_in, Exists_exists.
    by exists ("Online service", ["online"; "web"; "app"; "digital"; "cloud"]). }
  split_and!; [| done | done | done |].
  - eexists _, _. apply combined_info_header.
  - intros Heq. rewrite Heq in Hin. revert Hin.
    apply (bool_decide_unpack _). by vm_compute.
Qed.

Lemma run_query_nothing web acc query :
  ddgs_text web query = None \/ ddgs_text web query = Some [] ->
  run_query web acc query = acc.
Proof. unfold run_query. by intros [-> | ->]. Qed.

(** A search that is disabled, unavailable, failing or empty-handed gives
    no supplementary text. *)
Lemma perform_search_nothing web enable_search name company description :
  enable_search = false
  \/ SEARCH_AVAILABLE web = false
  \/ DDGS_opens web = false
  \/ (forall query, ddgs_text web query = None \/ ddgs_text web query = Some []) ->
  perform_search web enable_search name company description = ("", []).
Proof.
  unfold perform_search, _search_for_system.
  intros [-> | [-> | [-> | Hq]]]; try done.
  - by destruct enable_search.
  - destruct enable_search, (SEARCH_AVAILABLE web); try done.
  - destruct enable_search, (SEARCH_AVAILABLE web), (DDGS_opens web); try done.
    unfold search_queries. cbn [fold_left negb].
    by rewrite !run_query_nothing.
Qed.

(** C7, as the code has it.  The text over which the taxonomies and the
    purpose extraction run is the description, then an empty line and the
    fixed line "Additional Context from Web Search:", then the supplementary
    search text; that last part is empty when the search is disabled,
    unavailable, failing or without results. *)
Theorem analyzed_text_has_separator
    (web : Web) (enable_search : bool) (name company description : string) :
  let search_info := (perform_search web enable_search name company description).1 in
  let corpus :=
    description +:+ newline +:+ newline +:+ "Additional Context from Web Search:"
                +:+ newline +:+ search_info in
  let analysis := _analyze_description corpus name company in
  let profile := harvest_from_description web enable_search name company description in
  (sector profile = a_sector analysis
   /\ primary_purpose profile = a_primary_purpose analysis
   /\ user_base profile = a_user_base analysis
   /\ biometrics_involved profile = a_biometrics_involved analysis
   /\ biometrics_purpose profile = a_biometrics_purpose analysis
   /\ decision_making_role profile = a_decision_making_role analysis
   /\ high_risk_context profile = a_high_risk_contexts analysis
   /\ data_processed profile = a_data_processed analysis
   /\ deployment_context profile = a_deployment_context analysis)
  /\ (enable_search = false
      \/ SEARCH_AVAILABLE web = false
      \/ DDGS_opens web = false
      \/ (forall query, ddgs_text web query = None \/ ddgs_text web query = Some []) ->
      search_info = ""
      /\ corpus = description +:+ newline +:+ newline
                   +:+ "Additional Context from Web Search:" +:+ newline).
Proof.
  cbv zeta. rewrite harvest_from_description_eq. cbv zeta.
  unfold analyzed_text, combined_info. split; [by split_and! |].
  intros H. by rewrite (perform_search_nothing _ _ _ _ _ H).
Qed.

Lemma analyzed_text_has_separator_witness :
  let profile := harvest_from_description offline true "Sys" "Co" "Sorts the mail" in
  deployment_context profile = "Online service" /\ sector profile = "General".
Proof.
  pose proof (analyzed_text_has_separator offline true "Sys" "Co" "Sorts the mail")
    as [[Hsector [_ [_ [_ [_ [_ [_ [_ Hdeployment]]]]]]]] Hempty].
  destruct Hempty as [Hinfo _]; [right; left; reflexivity |].
  cbv zeta in Hsector, Hdeployment. rewrite Hinfo in Hsector, Hdeployment.
  split; [rewrite Hdeployment | rewrite Hsector]; reflexivity.
Defined.

(** C7, as the claim has it, fails: with the search disabled the text that
    is analysed is not the bare description, and the difference shows in the
    profile, whose deployment context is found in the inserted line. *)
Lemma analyzed_text_is_not_plain_concatenation :
  let search_info := (perform_search offline false "Sys" "Co" "Sorts the mail").1 in
  search_info = ""
  /\ analyzed_text offline false "Sys" "Co" "Sorts the mail"
     <> "Sorts the mail" +:+ search_info
  /\ deployment_context
       (harvest_from_description offline false "Sys" "Co" "Sorts the mail")
     = "Online service"
  /\ a_deployment_context
       (_analyze_description ("Sorts the mail" +:+ search_info) "Sys" "Co")
     = "General commercial use".
Proof. cbv zeta. split_and!; [reflexivity | discriminate | reflexivity | reflexivity]. Qed.

(** ** The search collaborator *)

Lemma collect_sources_NoDup acc result :
  is_Some (result !! "href") -> NoDup acc.2 -> NoDup (collect acc result).2.
Proof.
  intros [href Hhref] Hnd. unfold collect, href_seen. rewrite Hhref.
  case_bool_decide as Hin; [done |]. simpl.
  apply NoDup_app. split_and!; [done | | apply NoDup_singleton].
  intros x Hx Hx'. apply list_elem_of_singleton in Hx'. by subst.
Qed.

(** When every record carries its url, the sources have no duplicate. *)
Lemma fold_collect_NoDup results acc :
  Forall (fun result : gmap string string => is_Some (result !! "href")) results ->
  NoDup acc.2 -> NoDup (fold_left collect results acc).2.
Proof.
  intros H. revert acc. induction H as [|result results Hr _ IH]; intros acc Hnd.
  - done.
  - simpl. apply IH. by apply collect_sources_NoDup.
Qed.

Lemma run_query_NoDup web acc query :
  (forall results, ddgs_text web query = Some results ->
     Forall (fun result : gmap string string => is_Some (result !! "href")) results) ->
  NoDup acc.2 -> NoDup (run_query web acc query).2.
Proof.
  intros H Hnd. unfold run_query.
  destruct (ddgs_text web query) as [results |]; [| done].
  apply fold_collect_NoDup; auto.
Qed.

Lemma search_sources_NoDup web name company description :
  (forall query results, ddgs_text web query = Some results ->
     Forall (fun result : gmap string string => is_Some (result !! "href")) results) ->
  NoDup (_search_for_system web name company description).2.
Proof.
  intros H. unfold _search_for_system.
  destruct (SEARCH_AVAILABLE web); [| apply NoDup_nil_2].
  destruct (DDGS_opens web); [| apply NoDup_nil_2]. cbn [negb].
  destruct (fold_left (run_query web) (search_queries name company) ([], []))
    as [all_results sources] eqn:E.
  change sources with (all_results, sources).2. rewrite <- E.
  unfold search_queries. cbn [fold_left].
  do 2 (apply run_query_NoDup; [by eauto |]). apply NoDup_nil_2.
Qed.

(** A collected record holds the three fields of its source record, the
    empty string standing for a field the source lacks. *)
Lemma collect_records acc result record :
  record ∈ (collect acc result).1 ->
  record ∈ acc.1
  \/ (record !! "title" = Some (default "" (result !! "title"))
      /\ record !! "snippet" = Some (default "" (result !! "body"))
      /\ record !! "url" = Some (default "" (result !! "href"))).
Proof.
  unfold collect. destruct (href_seen result acc.2); [by left |]. simpl.
  intros [Hin | Hin%list_elem_of_singleton]%elem_of_app; [by left |].
  right. subst record. by split_and!.
Qed.

(** C10, on a search whose records lack their url ([no_url_web]): the test
    [result.get('href') not in sources] sees [None] where [sources] holds
    the empty string, so no record is dropped and the empty url is listed
    once per record.  The sources are free of duplicates when every record
    carries its url ([search_sources_NoDup]). *)
Lemma sources_repeat_missing_url :
  (_search_for_system no_url_web "Sys" "Co" "Sorts the mail").2 = [""; ""; ""; ""]
  /\ ~ NoDup (_search_for_system no_url_web "Sys" "Co" "Sorts the mail").2.
Proof.
  assert (H : (_search_for_system no_url_web "Sys" "Co" "Sorts the mail").2
              = [""; ""; ""; ""]) by (by vm_compute).
  split; [exact H |]. rewrite H. intros Hnd.
  apply NoDup_cons in Hnd as [Hnotin _]. apply Hnotin, list_elem_of_here.
Qed.

(** ** The store during a [classify] call

    Once [classify] has rebound the three fields, the store is some older
    part [h], left alone, followed by the three new list objects. *)

Lemma lookup_after (h l : list (list string)) (i : nat) :
  (h ++ l) !! (length h + i) = l !! i.
Proof. rewrite lookup_app_r by lia. f_equal. lia. Qed.

Lemma alter_after (f : list string -> list string) (h l : list (list string)) (i : nat) :
  alter f (length h + i) (h ++ l) = h ++ alter f i l.
Proof. apply alter_app_r. Qed.

(** The world after the three assignments at the head of [classify]. *)
Lemma reset_world (w : World) :
  {| heap := ((heap w ++ [[]]) ++ [[]]) ++ [[]];
     self := {| self_decision_path := length (heap w);
                self_reasoning := length (heap w ++ [[]]);
                self_recommendations := length ((heap w ++ [[]]) ++ [[]]) |} |}
  = fw (heap w) [] [] [].
Proof.
  unfold fw. rewrite !length_app, <- !app_assoc. simpl.
  by rewrite !Nat.add_1_r.
Qed.

Lemma append_decision_path_fw x h D R C :
  append self_decision_path x (fw h D R C) = (tt, fw h (D ++ [x]) R C).
Proof.
  unfold append, field, list_append, fw, mbind, M_bind. simpl.
  by rewrite <- (Nat.add_0_r (length h)), alter_after, Nat.add_0_r.
Qed.

Lemma append_reasoning_fw x h D R C :
  append self_reasoning x (fw h D R C) = (tt, fw h D (R ++ [x]) C).
Proof.
  unfold append, field, list_append, fw, mbind, M_bind. simpl.
  by rewrite <- (Nat.add_1_r (length h)), alter_after, Nat.add_1_r.
Qed.

Lemma extend_recommendations_fw ys h D R C :
  extend self_recommendations ys (fw h D R C) = (tt, fw h D R (C ++ ys)).
Proof.
  unfold extend, field, list_extend, fw, mbind, M_bind. simpl.
  replace (S (S (length h))) with (length h + 2) by lia.
  rewrite alter_after. simpl. repeat f_equal; lia.
Qed.

Lemma append_recommendations_fw x h D R C :
  append self_recommendations x (fw h D R C) = (tt, fw h D R (C ++ [x])).
Proof. apply (extend_recommendations_fw [x]). Qed.

Lemma effect_of_run {A : Type} (m : M A) (a : A) (d r c : list string) :
  m (fw [] [] [] []) = (a, fw [] d r c) -> effect_of m = (a, mkAppended d r c).
Proof. intros H. unfold effect_of. by rewrite H. Qed.

Lemma tidy_intro {A : Type} (m : M A) (a : A) (d r c : list string) :
  (forall h D R C, m (fw h D R C) = (a, fw h (D ++ d) (R ++ r) (C ++ c))) ->
  tidy m /\ effect_of m = (a, mkAppended d r c).
Proof.
  intros H. assert (E : effect_of m = (a, mkAppended d r c)).
  { apply effect_of_run. by rewrite H. }
  split; [| done]. intros h D R C. by rewrite E, H.
Qed.

Lemma tidy_ret {A : Type} (a : A) : tidy (mret a).
Proof.
  apply (tidy_intro (mret a) a [] [] []). intros h D R C.
  by rewrite !app_nil_r.
Qed.

Lemma tidy_bind {A B : Type} (m : M A) (k : A -> M B) :
  tidy m -> (forall a, tidy (k a)) -> tidy (m ≫= k).
Proof.
  intros Hm Hk.
  apply (tidy_intro (m ≫= k) (effect_of (k (effect_of m).1)).1
           (to_decision_path (effect_of m).2
              ++ to_decision_path (effect_of (k (effect_of m).1)).2)
           (to_reasoning (effect_of m).2
              ++ to_reasoning (effect_of (k (effect_of m).1)).2)
           (to_recommendations (effect_of m).2
              ++ to_recommendations (effect_of (k (effect_of m).1)).2)).
  intros h D R C. unfold mbind, M_bind.
  by rewrite Hm, Hk, !app_assoc.
Qed.

(** The effect of a sequence is the sequence of the effects. *)
Lemma effect_of_bind {A B : Type} (m : M A) (k : A -> M B) :
  tidy m -> (forall a, tidy (k a)) ->
  effect_of (m ≫= k)
  = ((effect_of (k (effect_of m).1)).1,
     and_then (effect_of m).2 (effect_of (k (effect_of m).1)).2).
Proof.
  intros Hm Hk. apply effect_of_run. unfold mbind, M_bind.
  by rewrite Hm, Hk.
Qed.

Lemma tidy_if {A : Type} (b : bool) (m1 m2 : M A) :
  tidy m1 -> tidy m2 -> tidy (if b then m1 else m2).
Proof. by destruct b. Qed.

Lemma tidy_append_decision_path x : tidy (append self_decision_path x).
Proof.
  apply (tidy_intro _ tt [x] [] []). intros h D R C.
  by rewrite append_decision_path_fw, !app_nil_r.
Qed.

Lemma tidy_append_reasoning x : tidy (append self_reasoning x).
Proof.
  apply (tidy_intro _ tt [] [x] []). intros h D R C.
  by rewrite append_reasoning_fw, !app_nil_r.
Qed.

Lemma tidy_append_recommendations x : tidy (append self_recommendations x).
Proof.
  apply (tidy_intro _ tt [] [] [x]). intros h D R C.
  by rewrite append_recommendations_fw, !app_nil_r.
Qed.

Lemma tidy_extend_recommendations ys : tidy (extend self_recommendations ys).
Proof.
  apply (tidy_intro _ tt [] [] ys). intros h D R C.
  by rewrite extend_recommendations_fw, !app_nil_r.
Qed.

Ltac tidy_step :=
  first
    [ apply tidy_ret
    | apply tidy_append_decision_path
    | apply tidy_append_reasoning
    | apply tidy_append_recommendations
    | apply tidy_extend_recommendations
    | apply tidy_if
    | match goal with
      | |- tidy (match ?o with Some _ => _ | None => _ end) => destruct o
      end
    | apply tidy_bind; [| intros ?] ].

Ltac solve_tidy := repeat tidy_step.

Lemma tidy_add_high_risk_recommendations category :
  tidy (_add_high_risk_recommendations category).
Proof. unfold _add_high_risk_recommendations. solve_tidy. Qed.

Lemma tidy_check_exceptions profile : tidy (_check_exceptions profile).
Proof. unfold _check_exceptions. solve_tidy. Qed.

Lemma tidy_check_prohibited profile : tidy (_check_prohibited profile).
Proof. unfold _check_prohibited. solve_tidy. Qed.

Lemma tidy_check_transparency profile : tidy (_check_transparency profile).
Proof. unfold _check_transparency. solve_tidy. Qed.

Lemma tidy_check_high_risk profile : tidy (_check_high_risk profile).
Proof.
  unfold _check_high_risk.
  repeat first [apply tidy_add_high_risk_recommendations | tidy_step].
Qed.

(** ** Assembling the result *)

Lemma fw_fwx h D R C : fw h D R C = fwx h D R C [].
Proof. unfold fwx, fw. simpl. by rewrite app_nil_r. Qed.

Lemma lookup_fwx (h : list (list string)) (D R C : list string)
    (ext : list (list string)) (i : nat) :
  ((h ++ [D; R; C]) ++ ext) !! (length h + i) = ([D; R; C] ++ ext) !! i.
Proof. by rewrite <- app_assoc, lookup_after. Qed.

Lemma lookup_decision_path (h : list (list string)) (D R C : list string)
    (ext : list (list string)) :
  ((h ++ [D; R; C]) ++ ext) !! length h = Some D.
Proof. by rewrite <- (Nat.add_0_r (length h)), lookup_fwx. Qed.

Lemma lookup_reasoning (h : list (list string)) (D R C : list string)
    (ext : list (list string)) :
  ((h ++ [D; R; C]) ++ ext) !! S (length h) = Some R.
Proof. by rewrite <- (Nat.add_1_r (length h)), lookup_fwx. Qed.

Lemma lookup_recommendations (h : list (list string)) (D R C : list string)
    (ext : list (list string)) :
  ((h ++ [D; R; C]) ++ ext) !! S (S (length h)) = Some C.
Proof.
  replace (S (S (length h))) with (length h + 2) by lia. by rewrite lookup_fwx.
Qed.

Lemma lookup_added (h : list (list string)) (D R C : list string)
    (ext : list (list string)) (i : nat) :
  ((h ++ [D; R; C]) ++ ext) !! (length (h ++ [D; R; C]) + i) = ext !! i.
Proof. apply lookup_after. Qed.

Lemma or_default_reasoning x h D R C ext :
  or_default self_reasoning x (fwx h D R C ext)
  = if nonempty R then (S (length h), fwx h D R C ext)
    else (length (h ++ [D; R; C]) + length ext, fwx h D R C (ext ++ [[x]])).
Proof.
  unfold or_default, field, load, new_list, mbind, M_bind, fwx, fw.
  cbn [heap self self_reasoning]. rewrite lookup_reasoning.
  destruct R; [| done].
  cbn [default from_option id nonempty heap self].
  by rewrite (length_app _ ext), <- app_assoc.
Qed.

Lemma or_default_recommendations x h D R C ext :
  or_default self_recommendations x (fwx h D R C ext)
  = if nonempty C then (S (S (length h)), fwx h D R C ext)
    else (length (h ++ [D; R; C]) + length ext, fwx h D R C (ext ++ [[x]])).
Proof.
  unfold or_default, field, load, new_list, mbind, M_bind, fwx, fw.
  cbn [heap self self_recommendations]. rewrite lookup_recommendations.
  destruct C; [| done].
  cbn [default from_option id nonempty heap self].
  by rewrite (length_app _ ext), <- app_assoc.
Qed.

Lemma load_reasoning_fwx h D R C ext :
  load (S (length h)) (fwx h D R C ext) = (R, fwx h D R C ext).
Proof. unfold load, fwx. cbn [heap]. by rewrite lookup_reasoning. Qed.

Lemma lookup_added_0 (h : list (list string)) (D R C : list string)
    (ext : list (list string)) :
  ((h ++ [D; R; C]) ++ ext) !! length (h ++ [D; R; C]) = ext !! 0.
Proof. by rewrite <- (Nat.add_0_r (length _)), lookup_added. Qed.

Ltac read_store :=
  unfold view, result_of, within, fwx;
  cbn [heap risk_level reasoning relevant_articles decision_path confidence
       recommendations to_reasoning to_decision_path to_recommendations
       nonempty app length];
  rewrite ?Nat.add_0_r, ?lookup_decision_path, ?lookup_reasoning,
    ?lookup_recommendations, ?lookup_added_0, ?lookup_added;
  try reflexivity.

Ltac result_found :=
  eexists _, _; split; [reflexivity |]; split; read_store;
  rewrite !length_app; simpl; lia.

(** [_create_result] in the store of a [classify] call: the result reads as
    [result_of] says, its references point into the part of the store made
    during the call, and the older part is as it was. *)
Lemma create_result_fw lvl h D R C :
  exists r ext,
    _create_result lvl (fw h D R C) = (r, fwx h D R C ext)
    /\ view (heap (fwx h D R C ext)) r = result_of lvl (mkAppended D R C)
    /\ within r (length h) (length (heap (fwx h D R C ext))).
Proof.
  rewrite fw_fwx. unfold _create_result, mbind, M_bind.
  change (field self_reasoning (fwx h D R C [])) with (S (length h), fwx h D R C []).
  cbv beta iota. rewrite load_reasoning_fwx. cbv beta iota.
  rewrite or_default_reasoning.
  destruct R as [|x R]; cbn [nonempty]; cbv beta iota.
  - change (field self_decision_path
              (fwx h D [] C ([] ++ [["No specific risks identified"]])))
      with (length h, fwx h D [] C ([] ++ [["No specific risks identified"]])).
    cbv beta iota. rewrite or_default_recommendations.
    destruct C as [|y C]; cbn [nonempty]; cbv beta iota; result_found.
  - change (field self_decision_path (fwx h D (x :: R) C []))
      with (length h, fwx h D (x :: R) C []).
    cbv beta iota. rewrite or_default_recommendations.
    destruct C as [|y C]; cbn [nonempty]; cbv beta iota; result_found.
Qed.

(** ** The whole of [classify] *)

Lemma classify_after_reset profile w :
  classify profile w
  = (exception ← _check_exceptions profile;
     if (exception : bool) then _create_result EXCEPTION else
     prohibited ← _check_prohibited profile;
     if (prohibited : bool) then _create_result PROHIBITED else
     high_risk ← _check_high_risk profile;
     if (high_risk : bool) then _create_result HIGH_RISK else
     transparency ← _check_transparency profile;
     if (transparency : bool) then _create_result TRANSPARENCY_REQUIREMENTS else
     _create_result LOW_RISK) (fw (heap w) [] [] []).
Proof.
  unfold classify.
  unfold mbind, M_bind, new_list, set_decision_path, set_reasoning,
    set_recommendations.
  cbn [heap self self_decision_path self_reasoning self_recommendations].
  by rewrite reset_world.
Qed.

Lemma heap_fwx_extends h D R C ext :
  heap (fwx h D R C ext) = h ++ ([D; R; C] ++ ext).
Proof. unfold fwx. cbn [heap]. by rewrite <- app_assoc. Qed.

Ltac conclude_with lvl :=
  match goal with
  | |- context [_create_result lvl (fw ?h ?D ?R ?C)] =>
      destruct (create_result_fw lvl h D R C) as [r [ext [Hrun [Hview Hin]]]];
      exists r, (fwx h D R C ext); rewrite Hrun;
      split_and!;
      [ reflexivity
      | eexists; apply heap_fwx_extends
      | rewrite Hview; reflexivity
      | exact Hin ]
  end.

(** A [classify] call from any world: it only adds to the store, its result
    reads as the verdict on the profile, and the lists of the result are
    objects made during the call. *)
Lemma classify_run profile w :
  exists r w',
    classify profile w = (r, w')
    /\ (exists ext, heap w' = heap w ++ ext)
    /\ view (heap w') r = result_of (verdict profile).1 (verdict profile).2
    /\ within r (length (heap w)) (length (heap w')).
Proof.
  rewrite classify_after_reset. unfold mbind, M_bind, verdict.
  rewrite (tidy_check_exceptions profile).
  destruct (effect_of (_check_exceptions profile)) as [[] [d1 r1 c1]];
    cbn [fst snd to_decision_path to_reasoning to_recommendations];
    [conclude_with EXCEPTION |].
  rewrite (tidy_check_prohibited profile).
  destruct (effect_of (_check_prohibited profile)) as [[] [d2 r2 c2]];
    cbn [fst snd to_decision_path to_reasoning to_recommendations];
    [conclude_with PROHIBITED |].
  rewrite (tidy_check_high_risk profile).
  destruct (effect_of (_check_high_risk profile)) as [[] [d3 r3 c3]];
    cbn [fst snd to_decision_path to_reasoning to_recommendations];
    [conclude_with HIGH_RISK |].
  rewrite (tidy_check_transparency profile).
  destruct (effect_of (_check_transparency profile)) as [[] [d4 r4 c4]];
    cbn [fst snd to_decision_path to_reasoning to_recommendations];
    [conclude_with TRANSPARENCY_REQUIREMENTS | conclude_with LOW_RISK].
Qed.

Lemma classified_verdict profile w :
  classified profile w = result_of (verdict profile).1 (verdict profile).2.
Proof.
  unfold classified.
  destruct (classify_run profile w) as [r [w' [Hrun [_ [Hview _]]]]].
  by rewrite Hrun.
Qed.

(** A result reads the same in a store that has grown since. *)
Lemma view_extends (h ext : list (list string)) (r : ClassificationResult loc) (lo : nat) :
  within r lo (length h) -> view (h ++ ext) r = view h r.
Proof.
  intros [H1 [H2 H3]]. unfold view.
  by rewrite !lookup_app_l by lia.
Qed.

Lemma classify_all_extends profiles w :
  exists ext, heap (classify_all profiles w).2 = heap w ++ ext.
Proof.
  revert w. induction profiles as [|p rest IH]; intros w.
  - exists []. simpl. by rewrite app_nil_r.
  - cbn [classify_all]. unfold mbind, M_bind.
    destruct (classify_run p w) as [r [w' [Hrun [[ext Hext] _]]]].
    rewrite Hrun. destruct (IH w') as [ext' Hext'].
    exists (ext ++ ext'). by rewrite Hext', Hext, app_assoc.
Qed.

(** C3. Every [classify] call starts by binding the three fields to new
    empty lists.  So two calls on the same profile, on the same engine and
    with any calls in between, return results that read the same; the first
    result is not altered by the later calls, and what a call returns is the
    same from every state of the engine. *)
Theorem classify_depends_on_profile_only
    (profile : AISystemProfile) (between : list AISystemProfile) (w : World) :
  let '(first, w1) := classify profile w in
  let '(_, w2) := classify_all between w1 in
  let '(second, w3) := classify profile w2 in
  view (heap w3) first = view (heap w3) second
  /\ view (heap w3) first = view (heap w1) first
  /\ within first (length (heap w)) (length (heap w1))
  /\ (forall w', classified profile w' = classified profile w).
Proof.
  destruct (classify_run profile w) as [r1 [w1 [Hrun1 [[e1 He1] [Hview1 Hin1]]]]].
  rewrite Hrun1.
  destruct (classify_all_extends between w1) as [e2 He2].
  destruct (classify_all between w1) as [[] w2]. simpl in He2.
  destruct (classify_run profile w2) as [r2 [w3 [Hrun2 [[e3 He3] [Hview2 Hin2]]]]].
  rewrite Hrun2.
  assert (Hkeep : view (heap w3) r1 = view (heap w1) r1).
  { rewrite He3, He2, <- app_assoc. by apply view_extends with (lo := length (heap w)). }
  split_and!; [| done | done |].
  - by rewrite Hkeep, Hview1, Hview2.
  - intros w'. by rewrite !classified_verdict.
Qed.

(** ** The stages one by one *)

Ltac by_cases :=
  repeat match goal with
         | |- context [if ?c then _ else _] => destruct c
         end;
  try reflexivity.

Lemma exceptions_path profile :
  to_decision_path (effect_of (_check_exceptions profile)).2
  = ["Article 2: Scope exceptions"].
Proof. unfold effect_of, _check_exceptions. by_cases. Qed.

Lemma prohibited_path profile :
  to_decision_path (effect_of (_check_prohibited profile)).2
  = ["Article 5: Prohibited AI practices"].
Proof. unfold effect_of, _check_prohibited. by_cases. Qed.

Lemma high_risk_path profile :
  to_decision_path (effect_of (_check_high_risk profile)).2
  = ["Article 6 & Annex III: High-risk systems"].
Proof. unfold effect_of, _check_high_risk. by_cases. Qed.

Lemma transparency_path profile :
  to_decision_path (effect_of (_check_transparency profile)).2
  = ["Article 50: Transparency requirements"].
Proof. unfold effect_of, _check_transparency. by_cases. Qed.

(** What a stage returns does not depend on the state of the engine. *)
Lemma check_exceptions_returns profile w :
  (_check_exceptions profile w).1 = applies _check_exceptions profile.
Proof. unfold applies, effect_of, _check_exceptions. by_cases. Qed.

Lemma check_prohibited_returns profile w :
  (_check_prohibited profile w).1 = applies _check_prohibited profile.
Proof. unfold applies, effect_of, _check_prohibited. by_cases. Qed.

Lemma check_high_risk_returns profile w :
  (_check_high_risk profile w).1 = applies _check_high_risk profile.
Proof. unfold applies, effect_of, _check_high_risk. by_cases. Qed.

Lemma check_transparency_returns profile w :
  (_check_transparency profile w).1 = applies _check_transparency profile.
Proof. unfold applies, effect_of, _check_transparency. by_cases. Qed.

Lemma applies_check_exceptions profile :
  applies _check_exceptions profile
  = (str_in "research" (lower (description profile))
     && str_in "scientific" (lower (description profile)))
    || any_in ["military"; "defence"; "defense"] (lower (description profile)).
Proof. unfold applies, effect_of, _check_exceptions. by_cases. Qed.

(** C1, as the code has it.  [classify] tests the stages in the order
    Exceptions, Prohibited, High-Risk, Transparency and stops at the first
    that returns True, Low-Risk being the result when none does; the
    decision path holds the label of each stage tested, in that order, so 1
    to 4 labels, and all four exactly when the result is Transparency or
    Low-Risk.  A description that meets an Exception condition gives
    Exception even if it also meets a Prohibited condition. *)
Theorem classify_stage_order (profile : AISystemProfile) (w : World) :
  let r := classified profile w in
  let text := lower (description profile) in
  (risk_level r, decision_path r)
  = (if applies _check_exceptions profile then (EXCEPTION, take 1 stages)
     else if applies _check_prohibited profile then (PROHIBITED, take 2 stages)
     else if applies _check_high_risk profile then (HIGH_RISK, take 3 stages)
     else if applies _check_transparency profile
          then (TRANSPARENCY_REQUIREMENTS, take 4 stages)
     else (LOW_RISK, stages))
  /\ (forall w',
        (_check_exceptions profile w').1 = applies _check_exceptions profile
        /\ (_check_prohibited profile w').1 = applies _check_prohibited profile
        /\ (_check_high_risk profile w').1 = applies _check_high_risk profile
        /\ (_check_transparency profile w').1 = applies _check_transparency profile)
  /\ 1 <= length (decision_path r) <= 4
  /\ (decision_path r = stages
      <-> risk_level r = TRANSPARENCY_REQUIREMENTS \/ risk_level r = LOW_RISK)
  /\ ((str_in "research" text && str_in "scientific" text)
      || any_in ["military"; "defence"; "defense"] text = true ->
      any_in ["manipulate"; "subliminal"; "exploit vulnerabilities"] text
      || str_in "social scor" text = true ->
      risk_level r = EXCEPTION).
Proof.
  cbv zeta. rewrite classified_verdict.
  pose proof (applies_check_exceptions profile) as Hexc.
  pose proof (exceptions_path profile) as H1.
  pose proof (prohibited_path profile) as H2.
  pose proof (high_risk_path profile) as H3.
  pose proof (transparency_path profile) as H4.
  unfold verdict, applies in *.
  split_and!.
  - destruct (effect_of (_check_exceptions profile)) as [[] [d1 r1 c1]],
      (effect_of (_check_prohibited profile)) as [[] [d2 r2 c2]],
      (effect_of (_check_high_risk profile)) as [[] [d3 r3 c3]],
      (effect_of (_check_transparency profile)) as [[] [d4 r4 c4]];
      simpl in *; by subst.
  - intros w'. split_and!.
    + apply check_exceptions_returns.
    + apply check_prohibited_returns.
    + apply check_high_risk_returns.
    + apply check_transparency_returns.
  - destruct (effect_of (_check_exceptions profile)) as [[] [d1 r1 c1]],
      (effect_of (_check_prohibited profile)) as [[] [d2 r2 c2]],
      (effect_of (_check_high_risk profile)) as [[] [d3 r3 c3]],
      (effect_of (_check_transparency profile)) as [[] [d4 r4 c4]];
      simpl in *; subst; simpl; lia.
  - destruct (effect_of (_check_exceptions profile)) as [[] [d1 r1 c1]],
      (effect_of (_check_prohibited profile)) as [[] [d2 r2 c2]],
      (effect_of (_check_high_risk profile)) as [[] [d3 r3 c3]],
      (effect_of (_check_transparency profile)) as [[] [d4 r4 c4]];
      simpl in *; subst; simpl; lia.
  - destruct (effect_of (_check_exceptions profile)) as [[] [d1 r1 c1]],
      (effect_of (_check_prohibited profile)) as [[] [d2 r2 c2]],
      (effect_of (_check_high_risk profile)) as [[] [d3 r3 c3]],
      (effect_of (_check_transparency profile)) as [[] [d4 r4 c4]];
      simpl in *; subst; simpl; unfold stages;
      (split;
       [ intros Heq; first [by left | by right | discriminate Heq]
       | intros [Heq | Heq]; first [reflexivity | discriminate Heq] ]).
  - intros Hyes _. rewrite <- Hexc in Hyes.
    destruct (effect_of (_check_exceptions profile)) as [[] [d1 r1 c1]];
      simpl in *; [done | discriminate].
Qed.

Lemma classify_stage_order_witness :
  let profile :=
    harvest_from_description offline false "Ranker" "Acme"
      "A military system for social scoring of recruits" in
  risk_level (classified profile new_engine) = EXCEPTION.
Proof.
  cbv zeta.
  pose proof (classify_stage_order
                (harvest_from_description offline false "Ranker" "Acme"
                   "A military system for social scoring of recruits")
                new_engine) as [_ [_ [_ [_ H]]]].
  apply H; reflexivity.
Defined.

(** C1, as the claim has it, fails on "all four labels exactly when
    Low-Risk": a description that only the Transparency stage accepts has
    been through all four stages, and its result is not Low-Risk. *)
Lemma four_labels_without_low_risk :
  let profile :=
    harvest_from_description offline false "Helpdesk" "Acme"
      "A chatbot that answers customer questions" in
  let r := classified profile new_engine in
  decision_path r = stages
  /\ risk_level r = TRANSPARENCY_REQUIREMENTS
  /\ ~ (decision_path r = stages <-> risk_level r = LOW_RISK).
Proof.
  cbv zeta. split_and!; [reflexivity | reflexivity |].
  intros [H _]. by specialize (H eq_refl).
Qed.

(** The five end-to-end scenarios of the specification, on an engine just
    constructed and without search. *)
Example end_to_end_scenarios :
  let run description :=
    classified (harvest_from_description offline false "System" "Acme" description)
               new_engine in
  risk_level (run "A social scoring system used to rank citizens") = PROHIBITED
  /\ risk_level (run "a scientific research project using AI for defence applications")
     = EXCEPTION
  /\ risk_level (run "An AI assistant that helps drivers navigate while driving the vehicle")
     = HIGH_RISK
  /\ risk_level (run "A chatbot that answers customer questions")
     = TRANSPARENCY_REQUIREMENTS
  /\ risk_level (run "Enhances photos with artistic filters for social media") = LOW_RISK
  /\ recommendations (run "Enhances photos with artistic filters for social media")
     = ["Monitor regulatory developments"].
Proof. cbv zeta. by split_and!; vm_compute. Qed.

(** ** Confidence *)

(** C4. The confidence comes from the number of reasons accumulated when
    [_create_result] starts: High from three on, Medium for two, Low below.
    With no reason accumulated, the result carries the one placeholder
    reason, put in after the count, and the confidence is Low. *)
Theorem confidence_counts_before_placeholder
    (lvl : RiskLevel) (h : list (list string)) (D R C : list string)
    (profile : AISystemProfile) (w : World) :
  (let '(r, w') := _create_result lvl (fw h D R C) in
   confidence r
   = (if (3 <=? length R)%nat then "High"
      else if (length R =? 2)%nat then "Medium" else "Low")
   /\ reasoning (view (heap w') r)
      = match R with [] => ["No specific risks identified"] | _ => R end)
  /\ (let '(r, w') := _create_result lvl (fw h D [] C) in
      reasoning (view (heap w') r) = ["No specific risks identified"]
      /\ confidence r = "Low")
  /\ (let r := classified profile w in
      let accumulated := to_reasoning (verdict profile).2 in
      confidence r = confidence_of (length accumulated)
      /\ reasoning r
         = match accumulated with
           | [] => ["No specific risks identified"]
           | _ => accumulated
           end).
Proof.
  split_and!.
  - destruct (create_result_fw lvl h D R C) as [r [ext [Hrun [Hview _]]]].
    rewrite Hrun. cbv beta iota.
    change (confidence r) with (confidence (view (heap (fwx h D R C ext)) r)).
    rewrite Hview. cbn [result_of confidence reasoning to_reasoning]. split.
    + unfold confidence_of. by destruct R as [|? [|? [|? ?]]].
    + by destruct R.
  - destruct (create_result_fw lvl h D [] C) as [r [ext [Hrun [Hview _]]]].
    rewrite Hrun. cbv beta iota.
    change (confidence r) with (confidence (view (heap (fwx h D [] C ext)) r)).
    by rewrite Hview.
  - cbv zeta. rewrite classified_verdict.
    cbn [result_of confidence reasoning]. split; [done |].
    by destruct (to_reasoning (verdict profile).2).
Qed.

(** ** The High-Risk stage against its priority list *)

(** The stage does what the priority list says: the first satisfied
    category alone is recorded. *)
Lemma check_high_risk_effect profile :
  effect_of (_check_high_risk profile)
  = match first_satisfied profile annex_iii_priority with
    | Some c =>
        (true, mkAppended ["Article 6 & Annex III: High-risk systems"]
                 (category_reasoning c) (category_recommendations c))
    | None => (false, mkAppended ["Article 6 & Annex III: High-risk systems"] [] [])
    end.
Proof.
  unfold effect_of, _check_high_risk, annex_iii_priority.
  cbn [first_satisfied satisfied]. by_cases.
Qed.

Lemma first_satisfied_split profile pre c post :
  Forall (fun x => satisfied x profile = false) pre ->
  satisfied c profile = true ->
  first_satisfied profile (pre ++ c :: post) = Some c.
Proof.
  induction 1 as [|x pre Hx _ IH]; intros Hc; simpl.
  - by rewrite Hc.
  - rewrite Hx. by apply IH.
Qed.

(** In a list whose items yield pairwise distinct elements, what a later
    item yields is not among what an earlier one yields. *)
Lemma later_disjoint {A B : Type} (f : A -> list B) (pre post : list A) (c later : A) (x : B) :
  NoDup ((pre ++ c :: post) ≫= f) -> later ∈ post -> x ∈ f later -> x ∉ f c.
Proof.
  rewrite bind_app, bind_cons. intros Hnd Hlater Hx Hc.
  apply NoDup_app in Hnd as [_ [_ Hnd]].
  apply NoDup_app in Hnd as [_ [Hdisjoint _]].
  apply (Hdisjoint x Hc). apply list_elem_of_bind. by exists later.
Qed.

Lemma reasoning_lines_distinct : NoDup (annex_iii_priority ≫= category_reasoning).
Proof. by apply (bool_decide_unpack _); vm_compute. Qed.

Lemma recommendations_distinct : NoDup (general ++ (annex_iii_priority ≫= extras)).
Proof. by apply (bool_decide_unpack _); vm_compute. Qed.

Lemma every_category_has_reasoning :
  Forall (fun c => nonempty (category_reasoning c) = true) annex_iii_priority.
Proof. repeat constructor. Qed.

Lemma stops_without_reasoning_exceptions profile :
  applies _check_exceptions profile = false ->
  (effect_of (_check_exceptions profile)).2
  = mkAppended ["Article 2: Scope exceptions"] [] [].
Proof.
  unfold applies, effect_of, _check_exceptions.
  by_cases; intros H; first [discriminate H | reflexivity].
Qed.

Lemma stops_without_reasoning_prohibited profile :
  applies _check_prohibited profile = false ->
  (effect_of (_check_prohibited profile)).2
  = mkAppended ["Article 5: Prohibited AI practices"] [] [].
Proof.
  unfold applies, effect_of, _check_prohibited.
  by_cases; intros H; first [discriminate H | reflexivity].
Qed.

(** C2. Inside the High-Risk stage the nine Annex III categories are tried
    in the priority order of [annex_iii_priority] and the first satisfied
    one ends the stage.  When [classify] gets to that stage and a category
    is the first satisfied, the result is High-Risk with the reasoning and
    the recommendations of that category only: no reasoning line and no
    extra recommendation of a later category is in it, satisfied or not. *)
Theorem high_risk_first_category_wins (profile : AISystemProfile) (w : World) :
  effect_of (_check_high_risk profile)
  = match first_satisfied profile annex_iii_priority with
    | Some c =>
        (true, mkAppended ["Article 6 & Annex III: High-risk systems"]
                 (category_reasoning c) (category_recommendations c))
    | None => (false, mkAppended ["Article 6 & Annex III: High-risk systems"] [] [])
    end
  /\ tidy (_check_high_risk profile)
  /\ (applies _check_exceptions profile = false ->
      applies _check_prohibited profile = false ->
      forall pre c post,
        annex_iii_priority = pre ++ c :: post ->
        Forall (fun x => satisfied x profile = false) pre ->
        satisfied c profile = true ->
        let r := classified profile w in
        risk_level r = HIGH_RISK
        /\ reasoning r = category_reasoning c
        /\ recommendations r = category_recommendations c
        /\ (forall later line,
              later ∈ post -> line ∈ category_reasoning later -> line ∉ reasoning r)
        /\ (forall later x,
              later ∈ post -> x ∈ extras later -> x ∉ recommendations r)).
Proof.
  split; [apply check_high_risk_effect |].
  split; [apply tidy_check_high_risk |].
  intros Hexc Hpro pre c post Hsplit Hpre Hc. cbv zeta.
  assert (Hlines : nonempty (category_reasoning c) = true).
  { pose proof every_category_has_reasoning as H.
    rewrite Forall_forall in H. apply H. rewrite Hsplit.
    apply elem_of_app. right. apply list_elem_of_here. }
  assert (Hr : classified profile w
               = result_of HIGH_RISK
                   (mkAppended (take 3 stages) (category_reasoning c)
                      (category_recommendations c))).
  { rewrite classified_verdict. unfold verdict.
    pose proof (stops_without_reasoning_exceptions profile Hexc) as H1.
    pose proof (stops_without_reasoning_prohibited profile Hpro) as H2.
    unfold applies in Hexc, Hpro. rewrite Hexc, Hpro, H1, H2.
    rewrite check_high_risk_effect, Hsplit.
    by rewrite (first_satisfied_split _ _ _ _ Hpre Hc). }
  rewrite Hr. cbn [result_of risk_level reasoning recommendations
                   to_reasoning to_recommendations].
  rewrite Hlines. change (nonempty (category_recommendations c)) with true.
  cbv iota. split_and!; [done.. | |].
  - intros later line Hlater Hline.
    apply (later_disjoint category_reasoning pre post c later line);
      [rewrite <- Hsplit; apply reasoning_lines_distinct | done | done].
  - intros later x Hlater Hx.
    pose proof recommendations_distinct as Hnd.
    apply NoDup_app in Hnd as [_ [Hgeneral Hextras]].
    unfold category_recommendations. intros [Hin | Hin]%elem_of_app.
    + apply (Hgeneral x Hin). apply list_elem_of_bind. exists later.
      split; [done |]. rewrite Hsplit. apply elem_of_app. right.
      by apply list_elem_of_further.
    + revert Hin.
      apply (later_disjoint extras pre post c later x);
        [by rewrite <- Hsplit | done | done].
Qed.

Lemma high_risk_first_category_wins_witness :
  let profile :=
    harvest_from_description offline false "Fleet" "Acme"
      "Ranks the drivers of each vehicle for hiring" in
  let r := classified profile new_engine in
  high_risk_context profile = ["Vehicle operation"; "Employment decision"]
  /\ risk_level r = HIGH_RISK
  /\ reasoning r
     = ["âš ï¸ HIGH-RISK: Safety component in vehicle operation (Annex III.2)";
        "System operates in safety-critical context"]
  /\ "âš ï¸ HIGH-RISK: Employment decision system (Annex III.4)" ∉ reasoning r.
Proof.
  cbv zeta.
  pose proof (high_risk_first_category_wins
                (harvest_from_description offline false "Fleet" "Acme"
                   "Ranks the drivers of each vehicle for hiring")
                new_engine) as [_ [_ H]].
  destruct (H eq_refl eq_refl (take 2 annex_iii_priority)
              (mkCategory "safety"
                 (fun profile =>
                    mem "Safety-critical environment" (high_risk_context profile)
                    || mem "Vehicle operation" (high_risk_context profile))
                 ["âš ï¸ HIGH-RISK: Safety component in vehicle operation (Annex III.2)";
                  "System operates in safety-critical context"])
              (drop 3 annex_iii_priority) eq_refl)
    as [Hlevel [Hreasoning [_ [Hlater _]]]].
  - repeat constructor.
  - reflexivity.
  - split_and!; [reflexivity | exact Hlevel | exact Hreasoning |].
    apply (Hlater (mkCategory "employment"
                     (fun profile => mem "Employment decision" (high_risk_context profile))
                     ["âš ï¸ HIGH-RISK: Employment decision system (Annex III.4)"])).
    + do 1 apply list_elem_of_further. apply list_elem_of_here.
    + apply list_elem_of_here.
Defined.

(** ** The emotion-recognition prohibition *)

Lemma risk_indicators_have_no_workplace : "Workplace" ∉ risk_indicators.*1.
Proof. by apply (bool_decide_unpack _); vm_compute. Qed.

Lemma high_risk_context_labels web enable_search name company description :
  high_risk_context
    (harvest_from_description web enable_search name company description)
  ⊆ risk_indicators.*1.
Proof.
  rewrite harvest_from_description_eq. cbv zeta. cbn [high_risk_context].
  unfold _analyze_description. cbn [a_high_risk_contexts].
  intros label Hin. apply all_hits_elem in Hin as [kws [Hin _]].
  apply list_elem_of_fmap. by exists (label, kws).
Qed.

Ltac not_this_line :=
  let H := fresh in
  intros H; simpl in H;
  repeat (apply elem_of_cons in H as [H | H]; [discriminate H |]);
  by apply elem_of_nil in H.

Lemma exceptions_never_emotion profile :
  emotion_line ∉ to_reasoning (effect_of (_check_exceptions profile)).2.
Proof. unfold effect_of, _check_exceptions. by_cases; not_this_line. Qed.

Lemma high_risk_never_emotion profile :
  emotion_line ∉ to_reasoning (effect_of (_check_high_risk profile)).2.
Proof. unfold effect_of, _check_high_risk. by_cases; not_this_line. Qed.

Lemma transparency_never_emotion profile :
  emotion_line ∉ to_reasoning (effect_of (_check_transparency profile)).2.
Proof. unfold effect_of, _check_transparency. by_cases; not_this_line. Qed.

(** The emotion-recognition line is recorded only by the last check of the
    Prohibited stage, under its two conditions. *)
Lemma prohibited_emotion_condition profile :
  emotion_line ∈ to_reasoning (effect_of (_check_prohibited profile)).2 ->
  biometrics_purpose profile = Some "emotion recognition"
  /\ (mem "Workplace" (high_risk_context profile) = true
      \/ mem "Educational assessment" (high_risk_context profile) = true).
Proof.
  unfold effect_of, _check_prohibited.
  do 3 (match goal with
        | |- context [if ?c then _ else _] => destruct c; [not_this_line |]
        end).
  match goal with
  | |- context [if ?c then _ else _] => destruct c eqn:E; [| not_this_line]
  end.
  intros _. apply andb_true_iff in E as [E1 E2].
  apply bool_decide_eq_true in E1. cbn [existsb] in E2.
  rewrite orb_false_r in E2. by apply orb_true_iff in E2.
Qed.

Lemma emotion_line_origin profile w :
  emotion_line ∈ reasoning (classified profile w) ->
  emotion_line ∈ to_reasoning (effect_of (_check_prohibited profile)).2.
Proof.
  rewrite classified_verdict. unfold verdict.
  pose proof (exceptions_never_emotion profile) as H1.
  pose proof (high_risk_never_emotion profile) as H3.
  pose proof (transparency_never_emotion profile) as H4.
  destruct (effect_of (_check_exceptions profile)) as [b1 [d1 r1 c1]],
    (effect_of (_check_prohibited profile)) as [b2 [d2 r2 c2]],
    (effect_of (_check_high_risk profile)) as [b3 [d3 r3 c3]],
    (effect_of (_check_transparency profile)) as [b4 [d4 r4 c4]].
  cbn [fst snd to_reasoning] in *.
  assert (Hfrom : forall X, emotion_line ∈ (if nonempty X then X
                                           else ["No specific risks identified"]) ->
                            emotion_line ∈ X).
  { intros [|x X] H; [| done]. simpl in H.
    apply list_elem_of_singleton in H. discriminate H. }
  destruct b1, b2, b3, b4;
    cbn [result_of reasoning and_then to_reasoning fst snd];
    intros H%Hfrom; rewrite ?elem_of_app in H; tauto.
Qed.

(** C9. The high-risk contexts of a harvested profile are among the 11
    labels of the risk taxonomy, and "Workplace" is not one of them: it is
    a deployment label only.  So the "Workplace" test of the
    emotion-recognition check never succeeds on such a profile, and the
    Article 5.1f reasoning is recorded only when the biometric purpose is
    "emotion recognition" and "Educational assessment" is a high-risk
    context of the profile. *)
Theorem emotion_prohibition_needs_education
    (web : Web) (enable_search : bool) (name company description : string)
    (w : World) :
  let profile := harvest_from_description web enable_search name company description in
  high_risk_context profile ⊆ risk_indicators.*1
  /\ length risk_indicators = 11
  /\ ("Workplace" ∉ risk_indicators.*1)
  /\ ("Workplace" ∈ deployment_contexts.*1)
  /\ mem "Workplace" (high_risk_context profile) = false
  /\ (emotion_line ∈ to_reasoning (effect_of (_check_prohibited profile)).2 ->
      biometrics_purpose profile = Some "emotion recognition"
      /\ "Educational assessment" ∈ high_risk_context profile)
  /\ (emotion_line ∈ reasoning (classified profile w) ->
      biometrics_purpose profile = Some "emotion recognition"
      /\ "Educational assessment" ∈ high_risk_context profile).
Proof.
  cbv zeta.
  pose proof (high_risk_context_labels web enable_search name company description)
    as Hsub.
  set (profile := harvest_from_description web enable_search name company description)
    in *.
  assert (Hno : mem "Workplace" (high_risk_context profile) = false).
  { unfold mem. apply bool_decide_eq_false. intros Hin.
    by apply risk_indicators_have_no_workplace, Hsub. }
  assert (Hstage : emotion_line ∈ to_reasoning (effect_of (_check_prohibited profile)).2 ->
                   biometrics_purpose profile = Some "emotion recognition"
                   /\ "Educational assessment" ∈ high_risk_context profile).
  { intros Hin. apply prohibited_emotion_condition in Hin as [Hpurpose [Hw | He]].
    - congruence.
    - split; [done |]. unfold mem in He. by apply bool_decide_eq_true in He. }
  split_and!; [done | done | apply risk_indicators_have_no_workplace | | done | done |].
  - by apply (bool_decide_unpack _); vm_compute.
  - intros Hin. by apply Hstage, (emotion_line_origin profile w).
Qed.

Lemma emotion_prohibition_needs_education_witness :
  let profile :=
    harvest_from_description offline false "Proctor" "Acme"
      "Emotion recognition of students during the exam" in
  risk_level (classified profile new_engine) = PROHIBITED
  /\ biometrics_purpose profile = Some "emotion recognition"
  /\ "Educational assessment" ∈ high_risk_context profile.
Proof.
  cbv zeta. split; [reflexivity |].
  pose proof (emotion_prohibition_needs_education offline false "Proctor" "Acme"
                "Emotion recognition of students during the exam" new_engine)
    as [_ [_ [_ [_ [_ [_ H]]]]]].
  apply H. apply list_elem_of_here.
Defined.

(** * Further properties of the code *)

(** ** What each stage records *)

Lemma check_exceptions_effect profile :
  effect_of (_check_exceptions profile)
  = if str_in "research" (lower (description profile))
       && str_in "scientific" (lower (description profile))
    then (true, mkAppended ["Article 2: Scope exceptions"]
                  ["May qualify for scientific research exception (Article 2.6)"] [])
    else if any_in ["military"; "defence"; "defense"] (lower (description profile))
    then (true, mkAppended ["Article 2: Scope exceptions"]
                  ["Military/defence exception applies (Article 2.3)"] [])
    else (false, mkAppended ["Article 2: Scope exceptions"] [] []).
Proof. unfold effect_of, _check_exceptions. by_cases. Qed.

Lemma check_prohibited_effect profile :
  effect_of (_check_prohibited profile)
  = if any_in ["manipulate"; "subliminal"; "exploit vulnerabilities"]
              (lower (description profile))
    then (true, mkAppended ["Article 5: Prohibited AI practices"]
                  ["ðŸš« PROHIBITED: Subliminal manipulation (Article 5.1a)"] [])
    else if str_in "social scor" (lower (description profile))
    then (true, mkAppended ["Article 5: Prohibited AI practices"]
                  ["ðŸš« PROHIBITED: Social scoring system (Article 5.1c)"] [])
    else if biometrics_involved profile
            && bool_decide (biometrics_purpose profile = Some "identification")
            && (str_in "real-time" (lower (description profile))
                || str_in "live" (lower (description profile)))
            && str_in "public" (lower (deployment_context profile))
    then (true, mkAppended ["Article 5: Prohibited AI practices"]
                  ["ðŸš« PROHIBITED: Real-time remote biometric identification (Article 5.1h)"] [])
    else if bool_decide (biometrics_purpose profile = Some "emotion recognition")
            && existsb (fun ctx => mem ctx (high_risk_context profile))
                       ["Workplace"; "Educational assessment"]
    then (true, mkAppended ["Article 5: Prohibited AI practices"]
                  ["ðŸš« PROHIBITED: Emotion recognition in workplace/education (Article 5.1f)"] [])
    else (false, mkAppended ["Article 5: Prohibited AI practices"] [] []).
Proof. unfold effect_of, _check_prohibited. by_cases. Qed.

Lemma check_transparency_effect profile :
  effect_of (_check_transparency profile)
  = if any_in ["chat"; "conversational"; "assistant"; "interact"]
              (lower (description profile))
    then (true, mkAppended ["Article 50: Transparency requirements"]
                  ["â„¹ï¸ TRANSPARENCY: Interactive AI system (Article 50.1)"]
                  ["Disclose AI interaction to users"])
    else if str_in "generat" (lower (description profile))
    then (true, mkAppended ["Article 50: Transparency requirements"]
                  ["â„¹ï¸ TRANSPARENCY: Generative AI system (Article 50.2)"]
                  ["Label AI-generated content"])
    else (false, mkAppended ["Article 50: Transparency requirements"] [] []).
Proof. unfold effect_of, _check_transparency. by_cases. Qed.

Lemma first_satisfied_elem profile categories c :
  first_satisfied profile categories = Some c ->
  c ∈ categories /\ satisfied c profile = true.
Proof.
  induction categories as [|x rest IH]; [done |]. simpl.
  destruct (satisfied x profile) eqn:E.
  - intros [= ->]. split; [apply list_elem_of_here | done].
  - intros H. destruct (IH H) as [Hin Hc].
    split; [by apply list_elem_of_further | done].
Qed.

Lemma category_in_has_reasoning c :
  c ∈ annex_iii_priority -> nonempty (category_reasoning c) = true.
Proof.
  pose proof every_category_has_reasoning as H. rewrite Forall_forall in H. apply H.
Qed.

Ltac pick_line :=
  repeat first [apply list_elem_of_here | apply list_elem_of_further].

(** Every result of [classify] has one of the five shapes of [Outcome]. *)
Lemma classified_outcome profile w : Outcome profile (classified profile w).
Proof.
  rewrite classified_verdict. unfold verdict.
  rewrite check_exceptions_effect.
  destruct (str_in "research" _ && str_in "scientific" _);
    [cbn; apply by_exception; pick_line |].
  destruct (any_in ["military"; _; _] _);
    [cbn; apply by_exception; pick_line |].
  rewrite check_prohibited_effect.
  destruct (any_in ["manipulate"; _; _] _);
    [cbn; apply by_prohibition; pick_line |].
  destruct (str_in "social scor" _);
    [cbn; apply by_prohibition; pick_line |].
  destruct (biometrics_involved profile && bool_decide _ && _ && _);
    [cbn; apply by_prohibition; pick_line |].
  destruct (bool_decide (_ = Some "emotion recognition") && _);
    [cbn; apply by_prohibition; pick_line |].
  rewrite check_high_risk_effect.
  destruct (first_satisfied profile annex_iii_priority) as [c |] eqn:E.
  - apply first_satisfied_elem in E as [Hin Hc].
    unfold result_of, and_then.
    cbn [fst snd to_decision_path to_reasoning to_recommendations app].
    rewrite (category_in_has_reasoning c Hin).
    change (nonempty (category_recommendations c)) with true. cbv iota.
    by apply by_high_risk.
  - rewrite check_transparency_effect.
    destruct (any_in ["chat"; _; _; _] _);
      [cbn; apply by_transparency; pick_line |].
    destruct (str_in "generat" _);
      [cbn; apply by_transparency; pick_line |].
    cbn. apply by_default.
Qed.

(** Splits a membership in a list written out into its cases. *)
Ltac each_member H :=
  repeat (apply elem_of_cons in H as [H | H];
          [ match type of H with
            | (_, _) = _ => injection H as -> ->
            | _ => subst
            end
          |]);
  try (by apply elem_of_nil in H).

(** X1. [classify] never returns the reserved level GPAI: the articles of a
    result are those of its level in the table, never the empty default of
    [articles.get], and [format_result], which fails exactly on a level
    without indicator, renders every result of [classify]. *)
Theorem classify_never_general_purpose
    (profile shown : AISystemProfile) (w : World) :
  let r := classified profile w in
  risk_level r <> GPAI_REQUIREMENTS
  /\ relevant_articles r = articles (risk_level r)
  /\ relevant_articles r <> []
  /\ is_Some (format_result shown r)
  /\ (forall result,
        format_result shown result = None
        <-> risk_level result = GPAI_REQUIREMENTS).
Proof.
  cbv zeta. split_and!.
  - by destruct (classified_outcome profile w).
  - by destruct (classified_outcome profile w).
  - by destruct (classified_outcome profile w).
  - by destruct (classified_outcome profile w).
  - intros result. unfold format_result.
    by destruct (risk_level result).
Qed.

(** X2. A result always has a reasoning line and a recommendation.  The
    Exception and Prohibited stages record no recommendation, so their
    results, like Low-Risk ones, carry the default "Monitor regulatory
    developments"; the placeholder reason marks exactly the Low-Risk
    results. *)
Theorem result_lists_never_empty (profile : AISystemProfile) (w : World) :
  let r := classified profile w in
  reasoning r <> []
  /\ recommendations r <> []
  /\ (risk_level r = EXCEPTION \/ risk_level r = PROHIBITED \/ risk_level r = LOW_RISK ->
      recommendations r = ["Monitor regulatory developments"])
  /\ (reasoning r = ["No specific risks identified"] <-> risk_level r = LOW_RISK).
Proof.
  cbv zeta. destruct (classified_outcome profile w) as [line H | line H | c H Hc | line advice H |];
    cbn [risk_level reasoning recommendations].
  - split_and!; [done | done | done |]. each_member H; by split.
  - split_and!; [done | done | done |]. each_member H; by split.
  - pose proof (category_in_has_reasoning c H) as Hne.
    split_and!.
    + by destruct (category_reasoning c).
    + done.
    + by intros [? | [? | ?]].
    + each_member H; by split.
  - split_and!; [done | done | by intros [? | [? | ?]] |]. each_member H; by split.
  - by split_and!.
Qed.

Lemma result_lists_never_empty_witness :
  let profile :=
    harvest_from_description offline false "Ranker" "Acme"
      "A social scoring system used to rank citizens" in
  risk_level (classified profile new_engine) = PROHIBITED
  /\ recommendations (classified profile new_engine)
     = ["Monitor regulatory developments"].
Proof.
  cbv zeta. split; [reflexivity |].
  pose proof (result_lists_never_empty
                (harvest_from_description offline false "Ranker" "Acme"
                   "A social scoring system used to rank citizens")
                new_engine) as [_ [_ [H _]]].
  apply H. right. left. reflexivity.
Defined.

(** X3. [classify] never reports the confidence "High": a result has one
    reasoning line, or the two lines of the safety category, in which case
    alone the confidence is "Medium". *)
Theorem confidence_is_low_or_medium (profile : AISystemProfile) (w : World) :
  let r := classified profile w in
  confidence r <> "High"
  /\ (confidence r = "Low" \/ confidence r = "Medium")
  /\ 1 <= length (reasoning r) <= 2
  /\ (confidence r = "Medium"
      <-> reasoning r
          = ["âš ï¸ HIGH-RISK: Safety component in vehicle operation (Annex III.2)";
             "System operates in safety-critical context"]).
Proof.
  cbv zeta. destruct (classified_outcome profile w) as [line H | line H | c H Hc | line advice H |];
    cbn [risk_level reasoning recommendations confidence].
  - split_and!; [done | by left | simpl; lia | simpl; lia | by split].
  - split_and!; [done | by left | simpl; lia | simpl; lia | by split].
  - each_member H;
      (split_and!; [done | first [by left | by right] | simpl; lia | simpl; lia | by split]).
  - split_and!; [done | by left | simpl; lia | simpl; lia | by split].
  - split_and!; [done | by left | simpl; lia | simpl; lia | by split].
Qed.

(** ** The report of a result *)

Lemma str_join_app (sep : string) (xs ys : list string) :
  xs <> [] -> ys <> [] ->
  join sep (xs ++ ys) = join sep xs +:+ sep +:+ join sep ys.
Proof.
  intros Hxs Hys. induction xs as [|x [|x' xs] IH]; [done | |].
  - destruct ys; [done |]. reflexivity.
  - change (join sep ((x :: x' :: xs) ++ ys))
      with (x +:+ sep +:+ join sep ((x' :: xs) ++ ys)).
    rewrite IH by done.
    change (join sep (x :: x' :: xs)) with (x +:+ sep +:+ join sep (x' :: xs)).
    by rewrite !append_assoc.
Qed.

(** The report ends with the recommendations section and the closing rule. *)
Lemma format_result_tail shown result indicator :
  indicators (risk_level result) = Some indicator ->
  exists before,
    format_result shown result
    = Some (before +:+ newline
            +:+ join newline (recommendation_lines (recommendations result)
                              ++ [newline +:+ repeat_str "=" 100])).
Proof.
  intros H. unfold format_result. rewrite H. eexists. f_equal.
  rewrite !app_assoc. rewrite <- (app_assoc _ (recommendation_lines _)).
  apply str_join_app; [| by destruct (recommendation_lines _)].
  intros Heq. do 5 apply app_eq_nil in Heq as [Heq _]. discriminate.
Qed.

(** The section reads the first five recommendations and how many there are. *)
Lemma recommendation_lines_shown (a b : list string) :
  take 5 a = take 5 b -> length a = length b ->
  recommendation_lines a = recommendation_lines b.
Proof.
  intros Ht Hl. unfold recommendation_lines. rewrite Ht, Hl.
  by destruct a, b.
Qed.

Lemma format_result_shown shown result recs :
  take 5 recs = take 5 (recommendations result) ->
  length recs = length (recommendations result) ->
  format_result shown (with_recommendations result recs) = format_result shown result.
Proof.
  intros Ht Hl. unfold format_result, with_recommendations.
  cbn [risk_level reasoning relevant_articles confidence recommendations].
  by rewrite (recommendation_lines_shown _ _ Ht Hl).
Qed.

(** X4. The report of a High-Risk result, for whatever profile it is
    printed with, ends with the recommendations heading, the first five of
    the eight general recommendations numbered 1 to 5, the line "... and N
    more" with N the 3 or 5 recommendations left out, and the closing rule.
    It is the same report whatever the recommendations after the fifth say:
    those proper to the category, which come after the eight general ones,
    are never printed.  Any other result has a single recommendation, printed
    as line 1 before the closing rule. *)
Theorem report_shows_general_recommendations_only
    (profile shown : AISystemProfile) (w : World) :
  let r := classified profile w in
  let heading := newline +:+ newline +:+ "âœ… COMPLIANCE RECOMMENDATIONS:" in
  let closing := newline +:+ newline +:+ repeat_str "=" 100 in
  (risk_level r = HIGH_RISK ->
   take 8 (recommendations r) = general
   /\ (exists before left_out,
         (length (recommendations r) = 8 /\ left_out = "3"
          \/ length (recommendations r) = 10 /\ left_out = "5")
         /\ format_result shown r
            = Some (before +:+ heading
                    +:+ newline +:+ "  1. Implement risk management system (Article 9)"
                    +:+ newline +:+ "  2. Ensure high-quality training data (Article 10)"
                    +:+ newline +:+ "  3. Maintain technical documentation (Article 11)"
                    +:+ newline +:+ "  4. Enable logging and traceability (Article 12)"
                    +:+ newline +:+ "  5. Implement human oversight (Article 14)"
                    +:+ newline +:+ "  ... and " +:+ left_out +:+ " more"
                    +:+ closing))
   /\ (forall hidden,
         length hidden = length (recommendations r) - 5 ->
         format_result shown (with_recommendations r (take 5 general ++ hidden))
         = format_result shown r))
  /\ (risk_level r <> HIGH_RISK ->
      exists before x,
        recommendations r = [x]
        /\ format_result shown r
           = Some (before +:+ heading +:+ newline +:+ "  1. " +:+ x +:+ closing)).
Proof.
  cbv zeta.
  destruct (classified_outcome profile w)
    as [line H | line H | c H Hc | line advice H |].
  - split; [discriminate |]. intros _.
    destruct (format_result_tail shown
                (mkResult EXCEPTION [line] (articles EXCEPTION) (take 1 stages) "Low"
                   ["Monitor regulatory developments"]) _ eq_refl) as [before ->].
    by exists before, "Monitor regulatory developments".
  - split; [discriminate |]. intros _.
    destruct (format_result_tail shown
                (mkResult PROHIBITED [line] (articles PROHIBITED) (take 2 stages) "Low"
                   ["Monitor regulatory developments"]) _ eq_refl) as [before ->].
    by exists before, "Monitor regulatory developments".
  - split; [| done]. intros _.
    destruct (format_result_tail shown
                (mkResult HIGH_RISK (category_reasoning c) (articles HIGH_RISK)
                   (take 3 stages) (confidence_of (length (category_reasoning c)))
                   (category_recommendations c)) _ eq_refl) as [before Hbefore].
    split_and!.
    + each_member H; reflexivity.
    + rewrite Hbefore. cbn [recommendations]. exists before.
      each_member H;
        first [ by exists "3"; split; [left |]
              | by exists "5"; split; [right |] ].
    + intros hidden Hlen. apply format_result_shown; cbn [recommendations] in *.
      * each_member H; by rewrite take_app_length' by reflexivity.
      * rewrite length_app, Hlen. each_member H; reflexivity.
  - split; [discriminate |]. intros _.
    destruct (format_result_tail shown
                (mkResult TRANSPARENCY_REQUIREMENTS [line]
                   (articles TRANSPARENCY_REQUIREMENTS) stages "Low" [advice])
                _ eq_refl) as [before ->].
    exists before, advice. split; [done |]. each_member H; reflexivity.
  - split; [discriminate |]. intros _.
    destruct (format_result_tail shown
                (mkResult LOW_RISK ["No specific risks identified"] (articles LOW_RISK)
                   stages "Low" ["Monitor regulatory developments"]) _ eq_refl)
      as [before ->].
    by exists before, "Monitor regulatory developments".
Qed.

Lemma report_shows_general_recommendations_only_witness :
  let profile :=
    harvest_from_description offline false "Fleet" "Acme"
      "Ranks the drivers of each vehicle for hiring" in
  let r := classified profile new_engine in
  length (recommendations r) = 10
  /\ take 8 (recommendations r) = general
  /\ exists before,
       format_result profile r
       = Some (before +:+ newline +:+ newline +:+ "âœ… COMPLIANCE RECOMMENDATIONS:"
               +:+ newline +:+ "  1. Implement risk management system (Article 9)"
               +:+ newline +:+ "  2. Ensure high-quality training data (Article 10)"
               +:+ newline +:+ "  3. Maintain technical documentation (Article 11)"
               +:+ newline +:+ "  4. Enable logging and traceability (Article 12)"
               +:+ newline +:+ "  5. Implement human oversight (Article 14)"
               +:+ newline +:+ "  ... and 5 more"
               +:+ newline +:+ newline +:+ repeat_str "=" 100).
Proof.
  cbv zeta.
  pose proof (report_shows_general_recommendations_only
                (harvest_from_description offline false "Fleet" "Acme"
                   "Ranks the drivers of each vehicle for hiring")
                (harvest_from_description offline false "Fleet" "Acme"
                   "Ranks the drivers of each vehicle for hiring")
                new_engine) as H.
  cbv zeta in H. destruct H as [H _].
  destruct (H eq_refl) as [Htake [[before [left_out [Hn Heq]]] _]].
  split_and!; [reflexivity | exact Htake |].
  exists before. destruct Hn as [[Hlen _] | [_ ->]]; [| exact Heq].
  vm_compute in Hlen. discriminate Hlen.
Defined.

(** ** Order of the checks inside a stage *)

(** X5. In the stages with several checks the first satisfied check, in
    the order of the source, gives the one reasoning line: scientific
    research before military; subliminal manipulation, social scoring,
    real-time biometric identification, emotion recognition; interactive
    before generative, each with its one recommendation. *)
Theorem first_check_decides (profile : AISystemProfile) (w : World) :
  let r := classified profile w in
  let text := lower (description profile) in
  (risk_level r = EXCEPTION ->
   reasoning r
   = [ if str_in "research" text && str_in "scientific" text
       then "May qualify for scientific research exception (Article 2.6)"
       else "Military/defence exception applies (Article 2.3)" ])
  /\ (risk_level r = PROHIBITED ->
      reasoning r
      = [ if any_in ["manipulate"; "subliminal"; "exploit vulnerabilities"] text
          then "ðŸš« PROHIBITED: Subliminal manipulation (Article 5.1a)"
          else if str_in "social scor" text
          then "ðŸš« PROHIBITED: Social scoring system (Article 5.1c)"
          else if biometrics_involved profile
                  && bool_decide (biometrics_purpose profile = Some "identification")
                  && (str_in "real-time" text || str_in "live" text)
                  && str_in "public" (lower (deployment_context profile))
          then "ðŸš« PROHIBITED: Real-time remote biometric identification (Article 5.1h)"
          else "ðŸš« PROHIBITED: Emotion recognition in workplace/education (Article 5.1f)" ])
  /\ (risk_level r = TRANSPARENCY_REQUIREMENTS ->
      (reasoning r, recommendations r)
      = if any_in ["chat"; "conversational"; "assistant"; "interact"] text
        then (["â„¹ï¸ TRANSPARENCY: Interactive AI system (Article 50.1)"],
              ["Disclose AI interaction to users"])
        else (["â„¹ï¸ TRANSPARENCY: Generative AI system (Article 50.2)"],
              ["Label AI-generated content"])).
Proof.
  cbv zeta. rewrite classified_verdict. unfold verdict.
  rewrite check_exceptions_effect.
  destruct (str_in "research" _ && str_in "scientific" _);
    [cbn; by split_and! |].
  destruct (any_in ["military"; _; _] _); [cbn; by split_and! |].
  rewrite check_prohibited_effect.
  destruct (any_in ["manipulate"; _; _] _); [cbn; by split_and! |].
  destruct (str_in "social scor" _); [cbn; by split_and! |].
  destruct (biometrics_involved profile && bool_decide _ && _ && _);
    [cbn; by split_and! |].
  destruct (bool_decide (_ = Some "emotion recognition") && _);
    [cbn; by split_and! |].
  rewrite check_high_risk_effect.
  destruct (first_satisfied profile annex_iii_priority) as [c |];
    [cbn; by split_and! |].
  rewrite check_transparency_effect.
  destruct (any_in ["chat"; _; _; _] _); [cbn; by split_and! |].
  destruct (str_in "generat" _); cbn; by split_and!.
Qed.

Lemma first_check_decides_witness :
  let profile :=
    harvest_from_description offline false "Writer" "Acme"
      "A chat assistant that generates marketing copy" in
  recommendations (classified profile new_engine)
  = ["Disclose AI interaction to users"].
Proof.
  cbv zeta.
  pose proof (first_check_decides
                (harvest_from_description offline false "Writer" "Acme"
                   "A chat assistant that generates marketing copy")
                new_engine) as [_ [_ H]].
  exact (f_equal snd (H eq_refl)).
Defined.

(** ** What [classify] reads of a profile *)

Lemma same_for_classify_mem p q label :
  same_for_classify p q -> label ∈ tested_contexts ->
  mem label (high_risk_context p) = mem label (high_risk_context q).
Proof.
  intros [_ [_ [_ [_ H]]]] Hin. unfold mem. apply bool_decide_ext. by apply H.
Qed.

Ltac same_fields H :=
  let Hd := fresh in let Hb := fresh in let Hp := fresh in let Hc := fresh in
  pose proof H as [Hd [Hb [Hp [Hc _]]]];
  cbn [existsb];
  repeat match goal with
         | |- context [mem ?label (high_risk_context ?p)] =>
             rewrite (same_for_classify_mem p _ label H) by pick_line
         end;
  rewrite ?Hd, ?Hb, ?Hp, ?Hc.

Lemma same_check_exceptions p q :
  same_for_classify p q -> _check_exceptions p = _check_exceptions q.
Proof. intros H. unfold _check_exceptions. same_fields H. reflexivity. Qed.

Lemma same_check_prohibited p q :
  same_for_classify p q -> _check_prohibited p = _check_prohibited q.
Proof. intros H. unfold _check_prohibited. same_fields H. reflexivity. Qed.

Lemma same_check_high_risk p q :
  same_for_classify p q -> _check_high_risk p = _check_high_risk q.
Proof. intros H. unfold _check_high_risk. same_fields H. reflexivity. Qed.

Lemma same_check_transparency p q :
  same_for_classify p q -> _check_transparency p = _check_transparency q.
Proof. intros H. unfold _check_transparency. same_fields H. reflexivity. Qed.

Lemma same_classified (p q : AISystemProfile) (w w' : World) :
  same_for_classify p q -> classified p w = classified q w'.
Proof.
  intros H. rewrite !classified_verdict. unfold verdict.
  by rewrite (same_check_exceptions p q H), (same_check_prohibited p q H),
    (same_check_high_risk p q H), (same_check_transparency p q H).
Qed.

(** X6. [classify] reads five things of a profile: the description, the
    two biometric fields, the deployment context, and which of eleven
    labels are among the high-risk contexts.  Name, company, sector,
    purpose, user base, decision role, data types, search data, and the
    order or repetition of the contexts have no influence on the result. *)
Theorem classify_reads_five_fields (p q : AISystemProfile) (w w' : World) :
  description p = description q ->
  biometrics_involved p = biometrics_involved q ->
  biometrics_purpose p = biometrics_purpose q ->
  deployment_context p = deployment_context q ->
  (forall label, label ∈ tested_contexts ->
     (label ∈ high_risk_context p <-> label ∈ high_risk_context q)) ->
  classified p w = classified q w'.
Proof.
  intros Hd Hb Hp Hc Hl. by apply same_classified.
Qed.

Lemma classify_reads_five_fields_witness :
  let p :=
    harvest_from_description offline false "Fleet" "Acme"
      "Ranks the drivers of each vehicle for hiring" in
  let q :=
    {| name := "Other"; company := "Other"; description := description p;
       sector := "Justice"; primary_purpose := ""; user_base := "General public";
       biometrics_involved := false; biometrics_purpose := None;
       decision_making_role := "Informational";
       high_risk_context := ["Employment decision"; "Vehicle operation";
                             "Employment decision"; "Medical decision"];
       data_processed := ["Health data"];
       deployment_context := deployment_context p;
       additional_info := None; search_sources := [] |} in
  classified p new_engine = classified q new_engine.
Proof.
  cbv zeta. apply classify_reads_five_fields; try reflexivity.
  intros label Hin.
  each_member Hin; (apply (bool_decide_unpack _); by vm_compute).
Defined.

(** X7. The context "Medical decision", which the harvester collects, is
    tested by no stage: a profile classifies as it would without it, so a
    profile without biometrics whose only high-risk context is "Medical
    decision" is never High-Risk. *)
Theorem medical_decision_is_not_tested (p : AISystemProfile) (w : World) :
  classified p w = classified (without_medical_decision p) w
  /\ (biometrics_involved p = false ->
      high_risk_context p = ["Medical decision"] ->
      risk_level (classified p w) <> HIGH_RISK).
Proof.
  split.
  - apply same_classified. split_and!; try reflexivity.
    intros label Hin. cbn [high_risk_context without_medical_decision].
    rewrite list_elem_of_filter. split; [| tauto].
    intros H. split; [| done]. intros ->. revert Hin.
    apply (bool_decide_unpack _). by vm_compute.
  - intros Hb Hh. rewrite classified_verdict. unfold verdict.
    rewrite check_high_risk_effect.
    assert (Hnone : first_satisfied p annex_iii_priority = None).
    { unfold annex_iii_priority. cbn [first_satisfied satisfied].
      by rewrite Hb, Hh. }
    rewrite Hnone.
    destruct (effect_of (_check_exceptions p)).1,
      (effect_of (_check_prohibited p)).1,
      (effect_of (_check_transparency p)).1; by cbn.
Qed.

Lemma medical_decision_is_not_tested_witness :
  let profile :=
    harvest_from_description offline false "Medical Diagnosis Assistant"
      "MedAI Solutions"
      "An AI system that analyzes patient symptoms, medical history, and test results to suggest potential diagnoses and treatment options for physicians to review." in
  high_risk_context profile = ["Medical decision"]
  /\ risk_level (classified profile new_engine) <> HIGH_RISK
  /\ risk_level (classified profile new_engine) = LOW_RISK.
Proof.
  cbv zeta. split_and!; [reflexivity | | reflexivity].
  apply medical_decision_is_not_tested; reflexivity.
Defined.

(** ** Real-time biometric identification *)

Lemma harvested_deployment_label web enable_search name company description :
  deployment_context
    (harvest_from_description web enable_search name company description)
  ∈ deployment_contexts.*1.
Proof.
  rewrite harvest_from_description_eq. cbv zeta. cbn [deployment_context].
  unfold _analyze_description. cbn [a_deployment_context].
  apply first_hit_in, Exists_exists.
  exists ("Online service", ["online"; "web"; "app"; "digital"; "cloud"]).
  split; [by apply (bool_decide_unpack _); vm_compute |].
  apply any_in_true_iff. exists "web".
  split; [by apply (bool_decide_unpack _); vm_compute |].
  apply combined_info_mentions_web.
Qed.

(** The Article 5.1h line is in a result only under the conditions of the
    third check of the Prohibited stage. *)
Lemma real_time_line_condition profile w :
  real_time_line ∈ reasoning (classified profile w) ->
  biometrics_involved profile = true
  /\ biometrics_purpose profile = Some "identification"
  /\ str_in "public" (lower (deployment_context profile)) = true.
Proof.
  rewrite classified_verdict. unfold verdict.
  rewrite check_exceptions_effect.
  destruct (str_in "research" _ && str_in "scientific" _); [not_this_line |].
  destruct (any_in ["military"; _; _] _); [not_this_line |].
  rewrite check_prohibited_effect.
  destruct (any_in ["manipulate"; _; _] _); [not_this_line |].
  destruct (str_in "social scor" _); [not_this_line |].
  destruct (biometrics_involved profile && bool_decide _ && _ && _) eqn:E.
  { intros _. apply andb_true_iff in E as [E Hpublic].
    apply andb_true_iff in E as [E _]. apply andb_true_iff in E as [Hb Hp].
    by apply bool_decide_eq_true in Hp. }
  destruct (bool_decide (_ = Some "emotion recognition") && _); [not_this_line |].
  rewrite check_high_risk_effect.
  destruct (first_satisfied profile annex_iii_priority) as [c |] eqn:Ec.
  { apply first_satisfied_elem in Ec as [Hin _].
    each_member Hin; not_this_line. }
  rewrite check_transparency_effect.
  destruct (any_in ["chat"; _; _; _] _); [not_this_line |].
  destruct (str_in "generat" _); not_this_line.
Qed.

(** X8. On a harvested profile the Article 5.1h prohibition (real-time
    remote biometric identification) is recorded only when the deployment
    context is "Public space", the one deployment label that contains
    "public", together with biometrics for identification: a system that the
    harvester places in a vehicle, a healthcare facility or a workplace is
    never prohibited on that ground. *)
Theorem real_time_identification_needs_public_space
    (web : Web) (enable_search : bool) (name company description : string)
    (w : World) :
  let profile := harvest_from_description web enable_search name company description in
  real_time_line ∈ reasoning (classified profile w) ->
  biometrics_involved profile = true
  /\ biometrics_purpose profile = Some "identification"
  /\ deployment_context profile = "Public space".
Proof.
  cbv zeta. intros Hin.
  apply real_time_line_condition in Hin as [Hb [Hp Hpublic]].
  split_and!; [done | done |].
  pose proof (harvested_deployment_label web enable_search name company description)
    as Hlabel.
  remember (deployment_context
              (harvest_from_description web enable_search name company description))
    as label eqn:E.
  clear E Hb Hp. revert Hpublic.
  each_member Hlabel; intros Hpublic; first [discriminate Hpublic | reflexivity].
Qed.

Lemma real_time_identification_needs_public_space_witness :
  let profile :=
    harvest_from_description offline false "Watcher" "Acme"
      "Live facial recognition to identify people in the street" in
  risk_level (classified profile new_engine) = PROHIBITED
  /\ deployment_context profile = "Public space".
Proof.
  cbv zeta. split; [reflexivity |].
  apply (real_time_identification_needs_public_space offline false "Watcher" "Acme"
           "Live facial recognition to identify people in the street" new_engine).
  apply list_elem_of_here.
Defined.

(** ** First-hit fields of the analysis *)

Lemma first_hit_first (pre post : taxonomy) label keywords text_lower dflt :
  Forall (fun entry => ~ hit text_lower entry) pre ->
  any_in keywords text_lower = true ->
  first_hit (pre ++ (label, keywords) :: post) text_lower dflt = label.
Proof.
  induction 1 as [|[l kws] pre Hno _ IH]; intros Hhit.
  - simpl. by rewrite Hhit.
  - cbn [app first_hit]. unfold hit in Hno. simpl in Hno.
    destruct (any_in kws text_lower); [done | by apply IH].
Qed.

Lemma first_hit_obeys table dflt text_lower :
  first_hit_law table dflt text_lower (first_hit table text_lower dflt).
Proof.
  split.
  - intros pre label keywords post -> Hpre Hhit. by apply first_hit_first.
  - apply first_hit_none.
Qed.

(** X9. For an analysed text within ASCII, the decision-making role, the
    deployment context and the user base are each chosen by the first-hit
    discipline over their table: the label of the first entry, in the order
    of declaration, with a keyword in the lower-cased text, and the defaults
    "Informational", "General commercial use" and "General public" when no
    entry has one. *)
Theorem first_hit_fields (full_text name company : string) :
  isascii full_text = true ->
  let analysis := _analyze_description full_text name company in
  let text_lower := lower full_text in
  first_hit_law decision_indicators "Informational" text_lower
    (a_decision_making_role analysis)
  /\ first_hit_law deployment_contexts "General commercial use" text_lower
       (a_deployment_context analysis)
  /\ first_hit_law user_bases "General public" text_lower (a_user_base analysis).
Proof. intros _. cbv zeta. split_and!; apply first_hit_obeys. Qed.

Lemma first_hit_fields_witness :
  a_decision_making_role
    (_analyze_description "We RECOMMEND and APPROVE loans" "Sys" "Co")
  = "Decision-making".
Proof.
  pose proof (first_hit_fields "We RECOMMEND and APPROVE loans" "Sys" "Co" eq_refl)
    as [[H _] _].
  apply (H [] "Decision-making"
           ["decide"; "decision"; "approve"; "reject"; "determine"; "evaluate";
            "assess"; "score"; "rate"]
           (drop 1 decision_indicators)); [reflexivity | constructor | reflexivity].
Defined.

Lemma str_in_trans (a b text : string) :
  str_in b text = true -> str_in a b = true -> str_in a text = true.
Proof.
  rewrite !str_in_true_iff. intros [u [v ->]] [x [y ->]].
  exists (u +:+ x), (y +:+ v). by rewrite !append_assoc.
Qed.

(** X10. Five keywords can never select their own label, because each
    contains a keyword of an earlier entry of its first-hit table: a text
    with "automated decision" or "automatic decision" gets the role
    "Decision-making" (so "Fully Automated Decision" needs "without human
    intervention"), a text with "healthcare" is deployed "In-vehicle
    system" (it contains "car"), and a text with "customs officer" or
    "immigration officer" never has the user base "Border control agents"
    (which needs "border agent"). *)
Theorem shadowed_keywords (full_text name company : string) :
  let analysis := _analyze_description full_text name company in
  let text := lower full_text in
  (str_in "automated decision" text = true \/ str_in "automatic decision" text = true ->
   a_decision_making_role analysis = "Decision-making")
  /\ (a_decision_making_role analysis = "Fully Automated Decision" ->
      str_in "without human intervention" text = true)
  /\ (str_in "healthcare" text = true ->
      a_deployment_context analysis = "In-vehicle system")
  /\ (str_in "customs officer" text = true \/ str_in "immigration officer" text = true ->
      a_user_base analysis <> "Border control agents")
  /\ (a_user_base analysis = "Border control agents" ->
      str_in "border agent" text = true).
Proof.
  cbv zeta. unfold _analyze_description.
  cbn [a_decision_making_role a_deployment_context a_user_base].
  set (text := lower full_text).
  assert (Hdecision :
            str_in "automated decision" text = true
            \/ str_in "automatic decision" text = true ->
            str_in "decision" text = true).
  { intros [H | H]; apply (str_in_trans "decision" _ text) in H; done. }
  assert (Hofficer :
            str_in "customs officer" text = true
            \/ str_in "immigration officer" text = true ->
            str_in "officer" text = true).
  { intros [H | H]; apply (str_in_trans "officer" _ text) in H; done. }
  split_and!.
  - intros H%Hdecision. unfold decision_indicators. cbn [first_hit any_in existsb].
    by rewrite H, !orb_true_r.
  - unfold decision_indicators. cbn [first_hit any_in existsb].
    destruct (str_in "without human intervention" text) eqn:Ew; [done |].
    destruct (str_in "decision" text) eqn:Ed.
    { by rewrite !orb_true_r. }
    assert (E1 : str_in "automated decision" text = false).
    { destruct (str_in "automated decision" text) eqn:E; [| done].
      apply (str_in_trans "decision" _ text) in E; [congruence | reflexivity]. }
    assert (E2 : str_in "automatic decision" text = false).
    { destruct (str_in "automatic decision" text) eqn:E; [| done].
      apply (str_in_trans "decision" _ text) in E; [congruence | reflexivity]. }
    rewrite E1, E2. cbn [orb].
    repeat match goal with
           | |- context [if ?c then _ else _] => destruct c
           end; discriminate.
  - intros H. apply (str_in_trans "car" _ text) in H; [| reflexivity].
    unfold deployment_contexts. cbn [first_hit any_in existsb].
    by rewrite H, !orb_true_r.
  - intros H%Hofficer. unfold user_bases. cbn [first_hit any_in existsb].
    rewrite H, !orb_true_r. cbn [orb].
    repeat match goal with
           | |- context [if ?c then _ else _] => destruct c
           end; discriminate.
  - unfold user_bases. cbn [first_hit any_in existsb].
    destruct (str_in "border agent" text) eqn:Eb; [done |].
    destruct (str_in "officer" text) eqn:Eo.
    { rewrite !orb_true_r. cbn [orb].
      repeat match goal with
             | |- context [if ?c then _ else _] => destruct c
             end; discriminate. }
    assert (E1 : str_in "customs officer" text = false).
    { destruct (str_in "customs officer" text) eqn:E; [| done].
      apply (str_in_trans "officer" _ text) in E; [congruence | reflexivity]. }
    assert (E2 : str_in "immigration officer" text = false).
    { destruct (str_in "immigration officer" text) eqn:E; [| done].
      apply (str_in_trans "officer" _ text) in E; [congruence | reflexivity]. }
    rewrite E1, E2. cbn [orb].
    repeat match goal with
           | |- context [if ?c then _ else _] => destruct c
           end; discriminate.
Qed.

Lemma shadowed_keywords_witness :
  a_deployment_context
    (_analyze_description "A triage portal for Healthcare staff" "Sys" "Co")
  = "In-vehicle system".
Proof.
  pose proof (shadowed_keywords "A triage portal for Healthcare staff" "Sys" "Co")
    as [_ [_ [H _]]].
  apply H. reflexivity.
Defined.

(** ** Biometrics *)

Lemma biometric_scan_hit table text_lower :
  Exists (hit text_lower) table ->
  biometric_scan table text_lower = (true, purpose_of text_lower).
Proof.
  induction table as [|[bio_type keywords] rest IH]; intros Hex.
  - by apply Exists_nil in Hex.
  - cbn [biometric_scan]. destruct (any_in keywords text_lower) eqn:E; [done |].
    apply IH. apply Exists_cons in Hex as [Hhit | Hex]; [| done].
    unfold hit in Hhit. simpl in Hhit. congruence.
Qed.

Lemma biometric_scan_none table text_lower :
  ~ Exists (hit text_lower) table ->
  biometric_scan table text_lower = (false, None).
Proof.
  induction table as [|[bio_type keywords] rest IH]; intros Hno; [done |].
  cbn [biometric_scan]. destruct (any_in keywords text_lower) eqn:E.
  - exfalso. apply Hno. by apply Exists_cons_hd.
  - apply IH. intros Hex. apply Hno. by apply Exists_cons_tl.
Qed.

(** X11. For an analysed text within ASCII, biometrics are involved exactly
    when a keyword of some biometric type is in the lower-cased text, and
    the purpose is set only then.  It is picked from the whole text,
    whichever biometric type matched, by the chain of the source:
    "identification" for "identification" or "identify"; else "emotion
    recognition" for "emotion" or "sentiment"; else "categorisation" for
    "categorization" or "categorisation"; else "authentication" for
    "verification" or "authenticate"; without any of these words it stays
    unset even though biometrics are involved. *)
Theorem biometrics_purpose_invariant (full_text name company : string) :
  isascii full_text = true ->
  let analysis := _analyze_description full_text name company in
  let text := lower full_text in
  let purpose := a_biometrics_purpose analysis in
  let identification := str_in "identification" text || str_in "identify" text in
  let emotion := str_in "emotion" text || str_in "sentiment" text in
  let categorisation := str_in "categorization" text || str_in "categorisation" text in
  let authentication := str_in "verification" text || str_in "authenticate" text in
  (a_biometrics_involved analysis = true <-> Exists (hit text) biometric_indicators)
  /\ (a_biometrics_involved analysis = false -> purpose = None)
  /\ (a_biometrics_involved analysis = true ->
      (identification = true -> purpose = Some "identification")
      /\ (identification = false -> emotion = true ->
          purpose = Some "emotion recognition")
      /\ (identification = false -> emotion = false -> categorisation = true ->
          purpose = Some "categorisation")
      /\ (identification = false -> emotion = false -> categorisation = false ->
          authentication = true ->
          purpose = Some "authentication")
      /\ (identification = false -> emotion = false -> categorisation = false ->
          authentication = false ->
          purpose = None)).
Proof.
  intros _. cbv zeta. unfold _analyze_description.
  cbn [a_biometrics_involved a_biometrics_purpose].
  destruct (decide (Exists (hit (lower full_text)) biometric_indicators)) as [Hex | Hno].
  - rewrite (biometric_scan_hit _ _ Hex). cbn [fst snd].
    split_and!; [done | done |]. intros _. unfold purpose_of.
    split_and!.
    + by intros ->.
    + by intros -> ->.
    + by intros -> -> ->.
    + by intros -> -> -> ->.
    + by intros -> -> -> ->.
  - rewrite (biometric_scan_none _ _ Hno). cbn [fst snd].
    split_and!; [by split | done | done].
Qed.

Lemma biometrics_purpose_invariant_witness :
  let analysis :=
    _analyze_description "FACE RECOGNITION that reads an emotion to Identify visitors"
      "Sys" "Co" in
  a_biometrics_involved analysis = true
  /\ a_biometrics_purpose analysis = Some "identification".
Proof.
  cbv zeta. split; [reflexivity |].
  pose proof (biometrics_purpose_invariant
                "FACE RECOGNITION that reads an emotion to Identify visitors"
                "Sys" "Co" eq_refl) as H.
  cbv zeta in H. destruct H as [_ [_ H]].
  destruct (H eq_refl) as [Hid _]. apply Hid. reflexivity.
Defined.

(** ** The primary purpose *)

Lemma take_str_length (n : nat) (text : string) :
  String.length (take_str n text) <= n.
Proof.
  revert text. induction n as [|n IH]; intros [|c text]; simpl; try lia.
  specialize (IH text). lia.
Qed.

Lemma take_str_nonempty (n : nat) (text : string) :
  0 < n -> text <> EmptyString -> take_str n text <> EmptyString.
Proof. intros Hn Ht. destruct n; [lia |]. by destruct text. Qed.

Lemma first_some_elem {A B : Type} (f : A -> option B) (l : list A) (y : B) :
  first_some f l = Some y -> exists x, x ∈ l /\ f x = Some y.
Proof.
  induction l as [|x l IH]; [done |]. simpl.
  destruct (f x) as [z |] eqn:E.
  - intros [= ->]. exists x. split; [apply list_elem_of_here | done].
  - intros H. destruct (IH H) as [x' [Hin Hx']].
    exists x'. split; [by apply list_elem_of_further | done].
Qed.

Lemma first_some_first {A B : Type} (f : A -> option B) (pre post : list A) (x : A) (y : B) :
  Forall (fun a => f a = None) pre -> f x = Some y ->
  first_some f (pre ++ x :: post) = Some y.
Proof.
  induction 1 as [|a pre Ha _ IH]; intros Hx; simpl.
  - by rewrite Hx.
  - rewrite Ha. by apply IH.
Qed.

Lemma first_some_none {A B : Type} (f : A -> option B) (l : list A) :
  Forall (fun a => f a = None) l -> first_some f l = None.
Proof. induction 1 as [|a l Ha _ IH]; [done |]. simpl. by rewrite Ha. Qed.

(** The test of the first loop, in one condition. *)
Lemma purpose_candidate_eq (name sentence : string) :
  purpose_candidate name sentence
  = if (str_in (lower name) (lower sentence)
        || any_in ["uses"; "enables"; "provides"; "helps"] (lower sentence))
       && (20 <? String.length (strip sentence))%nat
       && (String.length (strip sentence) <? 200)%nat
    then Some (strip sentence) else None.
Proof.
  unfold purpose_candidate.
  destruct (str_in _ _ || any_in _ _); [| done].
  by destruct (20 <? _)%nat, (_ <? 200)%nat.
Qed.

(** X12. For a text and a name within ASCII, the primary purpose is shorter
    than 200 characters and empty only for an empty text.  It is the first
    sentence (piece between periods) that, lower-cased, holds the lower-cased
    name or one of "uses", "enables", "provides", "helps", and that stripped
    has 21 to 199 characters, itself stripped; when no sentence fits, the
    first 150 characters of the first sentence that stripped has more than 30;
    when there is none either, the first 150 characters of the text. *)
Theorem primary_purpose_is_short (text name : string) :
  isascii text = true ->
  isascii name = true ->
  let purpose := _extract_primary_purpose text name in
  let fits := fun sentence : string =>
    (str_in (lower name) (lower sentence)
     || any_in ["uses"; "enables"; "provides"; "helps"] (lower sentence))
    && (20 <? String.length (strip sentence))%nat
    && (String.length (strip sentence) <? 200)%nat in
  let long := fun sentence : string => (30 <? String.length (strip sentence))%nat in
  String.length purpose < 200
  /\ (text <> EmptyString -> purpose <> EmptyString)
  /\ (forall pre sentence post,
        split_dot text = pre ++ sentence :: post ->
        Forall (fun s => fits s = false) pre ->
        fits sentence = true ->
        purpose = strip sentence)
  /\ (Forall (fun s => fits s = false) (split_dot text) ->
      (forall pre sentence post,
         split_dot text = pre ++ sentence :: post ->
         Forall (fun s => long s = false) pre ->
         long sentence = true ->
         purpose = take_str 150 (strip sentence))
      /\ (Forall (fun s => long s = false) (split_dot text) ->
          purpose = take_str 150 text)).
Proof.
  intros _ _. cbv zeta. split_and!.
  - unfold _extract_primary_purpose.
    destruct (first_some (purpose_candidate name) (split_dot text)) as [cleaned |] eqn:E1.
    + apply first_some_elem in E1 as [sentence [_ Hc]].
      rewrite purpose_candidate_eq in Hc.
      destruct (str_in _ _ || any_in _ _); [| done].
      destruct (Nat.ltb_spec 20 (String.length (strip sentence))); [| done].
      destruct (Nat.ltb_spec (String.length (strip sentence)) 200); [| done].
      injection Hc as <-. lia.
    + destruct (first_some substantial (split_dot text)) as [cut |] eqn:E2.
      * apply first_some_elem in E2 as [sentence [_ Hc]].
        unfold substantial in Hc.
        destruct (30 <? String.length (strip sentence))%nat; [| done].
        assert (Hcut : cut = take_str 150 (strip sentence)) by congruence.
        rewrite Hcut. pose proof (take_str_length 150 (strip sentence)). lia.
      * pose proof (take_str_length 150 text). lia.
  - intros Ht. unfold _extract_primary_purpose.
    destruct (first_some (purpose_candidate name) (split_dot text)) as [cleaned |] eqn:E1.
    + apply first_some_elem in E1 as [sentence [_ Hc]].
      rewrite purpose_candidate_eq in Hc.
      destruct (str_in _ _ || any_in _ _); [| done].
      destruct (Nat.ltb_spec 20 (String.length (strip sentence))); [| done].
      destruct (Nat.ltb_spec (String.length (strip sentence)) 200); [| done].
      injection Hc as <-. intros Heq. rewrite Heq in *. simpl in *. lia.
    + destruct (first_some substantial (split_dot text)) as [cut |] eqn:E2.
      * apply first_some_elem in E2 as [sentence [_ Hc]].
        unfold substantial in Hc.
        destruct (Nat.ltb_spec 30 (String.length (strip sentence))); [| done].
        assert (Hcut : cut = take_str 150 (strip sentence)) by congruence.
        rewrite Hcut. apply take_str_nonempty; [lia |].
        intros Heq. rewrite Heq in *. simpl in *. lia.
      * apply take_str_nonempty; [lia | done].
  - intros pre sentence post Hsplit Hpre Hfits.
    unfold _extract_primary_purpose. rewrite Hsplit.
    rewrite (first_some_first _ pre post sentence (strip sentence)); [done | |].
    + eapply Forall_impl; [exact Hpre |]. intros s Hs. cbv beta in Hs.
      by rewrite purpose_candidate_eq, Hs.
    + by rewrite purpose_candidate_eq, Hfits.
  - intros Hnone.
    assert (E1 : first_some (purpose_candidate name) (split_dot text) = None).
    { apply first_some_none. eapply Forall_impl; [exact Hnone |].
      intros s Hs. cbv beta in Hs. by rewrite purpose_candidate_eq, Hs. }
    unfold _extract_primary_purpose. rewrite E1. split.
    + intros pre sentence post Hsplit Hpre Hlong. rewrite Hsplit.
      rewrite (first_some_first _ pre post sentence (take_str 150 (strip sentence)));
        [done | |].
      * eapply Forall_impl; [exact Hpre |]. intros s Hs. cbv beta in Hs.
        unfold substantial. by rewrite Hs.
      * unfold substantial. by rewrite Hlong.
    + intros Hshort. rewrite first_some_none; [done |].
      eapply Forall_impl; [exact Hshort |]. intros s Hs. cbv beta in Hs.
      unfold substantial. by rewrite Hs.
Qed.

Lemma primary_purpose_is_short_witness :
  _extract_primary_purpose "Short. SYS sorts the incoming mail by topic. More" "Sys"
  = "SYS sorts the incoming mail by topic".
Proof.
  pose proof (primary_purpose_is_short
                "Short. SYS sorts the incoming mail by topic. More" "Sys"
                eq_refl eq_refl) as H.
  cbv zeta in H. destruct H as [_ [_ [H _]]].
  apply (H ["Short"] " SYS sorts the incoming mail by topic" [" More"]).
  - reflexivity.
  - by repeat constructor.
  - reflexivity.
Defined.

(** ** A search that fails *)

(** X13. A search that cannot be made (package missing, [DDGS()] failing)
    or that brings nothing (every query raising or answering no record)
    leaves no trace: the profile is the one built with the search
    disabled, without additional information and without sources. *)
Theorem failed_search_is_no_search
    (web : Web) (enable_search : bool) (name company description : string) :
  enable_search = false
  \/ SEARCH_AVAILABLE web = false
  \/ DDGS_opens web = false
  \/ (forall query, ddgs_text web query = None \/ ddgs_text web query = Some []) ->
  let profile := harvest_from_description web enable_search name company description in
  profile = harvest_from_description offline false name company description
  /\ additional_info profile = None
  /\ search_sources profile = [].
Proof.
  intros H. cbv zeta. rewrite !harvest_from_description_eq. cbv zeta.
  unfold analyzed_text.
  rewrite (perform_search_nothing _ _ _ _ _ H).
  by rewrite (perform_search_nothing offline false name company description)
    by (by left).
Qed.

Lemma failed_search_is_no_search_witness :
  search_sources
    (harvest_from_description
       {| SEARCH_AVAILABLE := true; DDGS_opens := true; ddgs_text := fun _ => None |}
       true "Sys" "Co" "Sorts the mail")
  = [].
Proof.
  apply (failed_search_is_no_search
           {| SEARCH_AVAILABLE := true; DDGS_opens := true; ddgs_text := fun _ => None |}
           true "Sys" "Co" "Sorts the mail").
  right. right. right. intros query. by left.
Defined.

(** X14. A query that raises is caught and counts as a query without
    records: the text and the sources are those of a provider that answers
    the empty list where this one fails, the other queries being kept. *)
Theorem failing_query_is_empty_answer
    (web web' : Web) (name company description : string) :
  SEARCH_AVAILABLE web' = SEARCH_AVAILABLE web ->
  DDGS_opens web' = DDGS_opens web ->
  (forall query, ddgs_text web' query = Some (default [] (ddgs_text web query))) ->
  _search_for_system web name company description
  = _search_for_system web' name company description.
Proof.
  intros Ha Ho Hq. unfold _search_for_system. rewrite Ha, Ho.
  assert (Hrun : forall acc query, run_query web' acc query = run_query web acc query).
  { intros acc query. unfold run_query. rewrite Hq.
    by destruct (ddgs_text web query). }
  unfold search_queries. cbn [fold_left]. by rewrite !Hrun.
Qed.

Lemma failing_query_is_empty_answer_witness :
  _search_for_system (flaky_web true) "Sys" "Co" "Sorts the mail"
  = ("- Sys: A sorter", ["https://co.example/sys"]).
Proof.
  rewrite (failing_query_is_empty_answer (flaky_web true) (flaky_web false)
             "Sys" "Co" "Sorts the mail").
  - by vm_compute.
  - reflexivity.
  - reflexivity.
  - intros query. simpl. by destruct (String.eqb query "Co Sys AI system").
Defined.

(** ** The sources of a search *)

Lemma collect_sources_elem acc result url :
  url ∈ (collect acc result).2
  <-> url ∈ acc.2 \/ default "" (result !! "href") = url.
Proof.
  unfold collect, href_seen.
  destruct (result !! "href") as [href |] eqn:E; simpl.
  - case_bool_decide as Hin; simpl.
    + split; [by left | intros [? | <-]; done].
    + rewrite elem_of_app, list_elem_of_singleton. by split; intros [? | ?]; auto.
  - rewrite elem_of_app, list_elem_of_singleton. by split; intros [? | ?]; auto.
Qed.

Lemma fold_collect_sources_elem results acc url :
  url ∈ (fold_left collect results acc).2
  <-> url ∈ acc.2
      \/ exists result, result ∈ results /\ default "" (result !! "href") = url.
Proof.
  revert acc. induction results as [|r results IH]; intros acc.
  - simpl. split; [by left | intros [? | [? [Hin _]]]; [done |]].
    by apply elem_of_nil in Hin.
  - cbn [fold_left]. rewrite IH, collect_sources_elem. split.
    + intros [[? | ?] | [result [Hin ?]]].
      * by left.
      * right. exists r. split; [apply list_elem_of_here | done].
      * right. exists result. split; [by apply list_elem_of_further | done].
    + intros [? | [result [Hin ?]]].
      * by left; left.
      * apply elem_of_cons in Hin as [-> | Hin].
        -- by left; right.
        -- right. by exists result.
Qed.

Lemma run_query_sources_elem web acc query url :
  url ∈ (run_query web acc query).2
  <-> url ∈ acc.2
      \/ exists results result,
           ddgs_text web query = Some results /\ result ∈ results
           /\ default "" (result !! "href") = url.
Proof.
  unfold run_query. destruct (ddgs_text web query) as [results |].
  - rewrite fold_collect_sources_elem. split.
    + intros [? | [result [? ?]]]; [by left |]. right. by exists results, result.
    + intros [? | [rs [result [[= <-] [? ?]]]]]; [by left |]. right. by exists result.
  - split; [by left |]. by intros [? | [rs [result [? _]]]].
Qed.

(** X15. When the search runs, the sources are the urls of the records
    that the two queries returned, the empty string standing for a missing
    url: every such url is listed and nothing else is.  When every record
    carries its url, no url is listed twice. *)
Theorem sources_are_the_returned_urls
    (web : Web) (name company description : string) :
  SEARCH_AVAILABLE web = true ->
  DDGS_opens web = true ->
  (forall url,
      url ∈ (_search_for_system web name company description).2
      <-> exists query results result,
            query ∈ search_queries name company
            /\ ddgs_text web query = Some results
            /\ result ∈ results
            /\ default "" (result !! "href") = url)
  /\ ((forall query results, ddgs_text web query = Some results ->
         Forall (fun result : gmap string string => is_Some (result !! "href")) results) ->
      NoDup (_search_for_system web name company description).2).
Proof.
  intros Ha Ho. split; [| apply search_sources_NoDup].
  intros url. unfold _search_for_system. rewrite Ha, Ho. cbn [negb].
  destruct (fold_left (run_query web) (search_queries name company) ([], []))
    as [all_results sources] eqn:E.
  cbn [snd]. change sources with (all_results, sources).2. rewrite <- E.
  unfold search_queries. cbn [fold_left].
  rewrite !run_query_sources_elem. cbn [snd]. split.
  - intros [[Hnil | [rs [r [? [? ?]]]]] | [rs [r [? [? ?]]]]].
    + by apply elem_of_nil in Hnil.
    + eexists _, rs, r. split_and!; [apply list_elem_of_here | done..].
    + eexists _, rs, r.
      split_and!; [apply list_elem_of_further, list_elem_of_here | done..].
  - intros [query [rs [r [Hq [? [? ?]]]]]].
    apply elem_of_cons in Hq as [-> | Hq].
    + left. right. by exists rs, r.
    + apply list_elem_of_singleton in Hq as ->. right. by exists rs, r.
Qed.

Lemma sources_are_the_returned_urls_witness :
  "https://co.example/sys"
  ∈ (_search_for_system (flaky_web false) "Sys" "Co" "Sorts the mail").2
  /\ NoDup (_search_for_system (flaky_web false) "Sys" "Co" "Sorts the mail").2.
Proof.
  destruct (sources_are_the_returned_urls (flaky_web false) "Sys" "Co" "Sorts the mail"
              eq_refl eq_refl) as [Helem Hnodup].
  split.
  - apply Helem.
    exists "Co Sys use case application",
      [ {[ "title" := "Sys"; "body" := "A sorter"; "href" := "https://co.example/sys" ]} ],
      {[ "title" := "Sys"; "body" := "A sorter"; "href" := "https://co.example/sys" ]}.
    split_and!; [apply list_elem_of_further, list_elem_of_here | reflexivity
                | apply list_elem_of_here | reflexivity].
  - apply Hnodup. intros query results. simpl.
    destruct (String.eqb query "Co Sys AI system"); intros [= <-]; repeat constructor.
    by eexists.
Defined.

(** ** Records without a body *)

Lemma format_without_snippet (results : list (gmap string string)) :
  Forall (fun record : gmap string string => default "" (record !! "snippet") = "")
         results ->
  _format_search_results results = "".
Proof.
  intros H. unfold _format_search_results. destruct results as [|r rs]; [done |].
  assert (Hnone : (r :: rs) ≫= format_line = []).
  { induction H as [|x xs Hx _ IH]; [done |].
    rewrite bind_cons, IH. unfold format_line. by rewrite Hx. }
  by rewrite Hnone.
Qed.

Lemma collect_without_snippet acc result :
  default "" (result !! "body") = "" ->
  Forall (fun record : gmap string string => default "" (record !! "snippet") = "")
         acc.1 ->
  Forall (fun record : gmap string string => default "" (record !! "snippet") = "")
         (collect acc result).1.
Proof.
  intros Hb Hacc. unfold collect. destruct (href_seen result acc.2); [done |].
  simpl. apply Forall_app. split; [done |]. apply Forall_singleton.
  by rewrite Hb.
Qed.

Lemma run_query_without_snippet web acc query :
  (forall results, ddgs_text web query = Some results ->
     Forall (fun result : gmap string string => default "" (result !! "body") = "")
            results) ->
  Forall (fun record : gmap string string => default "" (record !! "snippet") = "")
         acc.1 ->
  Forall (fun record : gmap string string => default "" (record !! "snippet") = "")
         (run_query web acc query).1.
Proof.
  intros H Hacc. unfold run_query.
  destruct (ddgs_text web query) as [results |]; [| done].
  specialize (H results eq_refl). revert acc Hacc.
  induction H as [|r rs Hr _ IH]; intros acc Hacc; [done |].
  cbn [fold_left]. apply IH. by apply collect_without_snippet.
Qed.

(** X16. A record whose body is missing or empty gives no line of text.
    If no returned record has a body, the supplementary text is empty and
    the profile has no additional information, whatever sources it lists. *)
Theorem records_without_body_leave_no_text
    (web : Web) (name company description : string) :
  (forall query results, ddgs_text web query = Some results ->
     Forall (fun result : gmap string string => default "" (result !! "body") = "")
            results) ->
  (_search_for_system web name company description).1 = ""
  /\ additional_info (harvest_from_description web true name company description)
     = None.
Proof.
  intros H.
  assert (Hinfo : (_search_for_system web name company description).1 = "").
  { unfold _search_for_system.
    destruct (SEARCH_AVAILABLE web); [| done].
    destruct (DDGS_opens web); [| done]. cbn [negb].
    destruct (fold_left (run_query web) (search_queries name company) ([], []))
      as [all_results sources] eqn:E.
    cbn [fst]. apply format_without_snippet.
    change all_results with (all_results, sources).1. rewrite <- E.
    unfold search_queries. cbn [fold_left].
    do 2 (apply run_query_without_snippet; [by eauto |]). constructor. }
  split; [done |].
  rewrite harvest_from_description_eq. cbv zeta. cbn [additional_info].
  unfold perform_search. by rewrite Hinfo.
Qed.

Lemma records_without_body_leave_no_text_witness :
  let profile := harvest_from_description no_url_web_without_body true "Sys" "Co"
                   "Sorts the mail" in
  additional_info profile = None /\ search_sources profile = [""; ""].
Proof.
  cbv zeta. split; [| by vm_compute].
  apply (records_without_body_leave_no_text no_url_web_without_body "Sys" "Co"
           "Sorts the mail").
  intros query results [= <-]. repeat constructor.
Defined.

(** ** From a keyword of the description to the level *)

Lemma str_in_description (kw description search_info : string) :
  str_in kw (lower description) = true ->
  str_in kw (lower (combined_info description search_info)) = true.
Proof.
  rewrite !str_in_true_iff. intros [a [b Hd]].
  exists a, (b +:+ lower (newline +:+ newline +:+ header +:+ newline +:+ search_info)).
  unfold combined_info. fold header.
  by rewrite lower_append, Hd, !append_assoc.
Qed.

Lemma tested_context_is_satisfied profile label keywords :
  (label, keywords) ∈ risk_indicators ->
  label <> "Medical decision" ->
  label ∈ high_risk_context profile ->
  is_Some (first_satisfied profile annex_iii_priority).
Proof.
  intros Hentry Hnot Hin.
  assert (Hmem : mem label (high_risk_context profile) = true).
  { unfold mem. by apply bool_decide_eq_true. }
  clear Hin. unfold annex_iii_priority. cbn [first_satisfied satisfied].
  each_member Hentry; try done; rewrite Hmem, ?orb_true_r; cbn [orb];
    repeat match goal with
           | |- context [if ?c then _ else _] => destruct c
           end; by eexists.
Qed.

(** X17. From harvesting to the level: when the description contains, in
    any case of letters, a keyword of a risk label other than "Medical
    decision", the harvested profile is classified Exception, Prohibited or
    High-Risk, never Transparency or Low-Risk. *)
Theorem risk_keyword_is_at_least_high_risk
    (web : Web) (enable_search : bool) (name company description : string)
    (w : World) (label kw : string) (keywords : list string) :
  (label, keywords) ∈ risk_indicators ->
  label <> "Medical decision" ->
  kw ∈ keywords ->
  str_in kw (lower description) = true ->
  let profile := harvest_from_description web enable_search name company description in
  label ∈ high_risk_context profile
  /\ (risk_level (classified profile w) = EXCEPTION
      \/ risk_level (classified profile w) = PROHIBITED
      \/ risk_level (classified profile w) = HIGH_RISK).
Proof.
  intros Hentry Hnot Hkw Hin. cbv zeta.
  assert (Hlabel : label ∈ high_risk_context
                     (harvest_from_description web enable_search name company
                        description)).
  { rewrite harvest_from_description_eq. cbv zeta. cbn [high_risk_context].
    unfold _analyze_description. cbn [a_high_risk_contexts].
    apply all_hits_elem. exists keywords. split; [done |].
    apply any_in_true_iff. exists kw. split; [done |].
    by apply str_in_description. }
  split; [done |].
  destruct (tested_context_is_satisfied _ _ _ Hentry Hnot Hlabel) as [c Hc].
  rewrite classified_verdict. unfold verdict.
  rewrite check_high_risk_effect, Hc.
  destruct (effect_of (_check_exceptions _)).1; [by left |].
  destruct (effect_of (_check_prohibited _)).1; [by right; left |].
  by right; right.
Qed.

Lemma risk_keyword_is_at_least_high_risk_witness :
  let profile :=
    harvest_from_description offline false "Planner" "Acme"
      "Plans the shifts of Healthcare staff" in
  "Vehicle operation" ∈ high_risk_context profile
  /\ risk_level (classified profile new_engine) = HIGH_RISK.
Proof.
  cbv zeta.
  destruct (risk_keyword_is_at_least_high_risk offline false "Planner" "Acme"
              "Plans the shifts of Healthcare staff" new_engine
              "Vehicle operation" "car"
              ["vehicle"; "car"; "driver"; "driving"; "autonomous vehicle"; "self-driving"])
    as [Hlabel _].
  - by apply (bool_decide_unpack _); vm_compute.
  - discriminate.
  - by apply (bool_decide_unpack _); vm_compute.
  - reflexivity.
  - split; [exact Hlabel | reflexivity].
Defined.
